(** * moltbot-ha: the safety gate and the command dispatcher

    A shallow embedding of [src/ha_ctl]: [safety.py] (the policy engine),
    [logger.py] ([log_action]), [client.py] ([call_service]) and the five
    mutating commands of [cli.py] ([on], [off], [toggle], [set], [call]).

    Python values are modelled by [Py.pyval]; exceptions by [Models.exn];
    what a command does to the outside world (console output, log records,
    HTTP requests) by a trace of [Models.event]s, written by a small
    writer-and-exception monad [M].

    The standard library functions the code imports ([fnmatch.fnmatch],
    [json.loads], the value of a float literal, the hub behind the HTTP
    session) are Section variables: every theorem holds for whatever they
    compute.  [Fnmatch.glob_match] is a concrete matcher used for the
    examples. *)

From Stdlib Require Import String Ascii List ZArith Bool Lia.
From Stdlib Require Import DecimalString Floats.
From Stdlib Require DecimalPos.
Import ListNotations.
Open Scope string_scope.

(* ================================================================== *)
(** * Python built-ins used by the code *)
(* ================================================================== *)

Module Py.

(** The newline of an f-string. *)
Definition nl : string := String (ascii_of_nat 10) EmptyString.

(** [c.lower()] for one character; the model covers ASCII. *)
Definition lower_char (c : ascii) : ascii :=
  let n := nat_of_ascii c in
  if ((65 <=? n) && (n <=? 90))%nat then ascii_of_nat (n + 32) else c.

(** [s.lower()] *)
Fixpoint lower (s : string) : string :=
  match s with
  | EmptyString => EmptyString
  | String c s' => String (lower_char c) (lower s')
  end.

(** [c in s] for a one-character [c] *)
Fixpoint contains_char (c : ascii) (s : string) : bool :=
  match s with
  | EmptyString => false
  | String d s' => Ascii.eqb c d || contains_char c s'
  end.

(** [sub in s] for strings *)
Fixpoint str_contains (sub s : string) : bool :=
  String.prefix sub s
  || match s with
     | EmptyString => false
     | String _ s' => str_contains sub s'
     end.

(** [x in l] for a list (or tuple) of strings *)
Definition str_in (x : string) (l : list string) : bool :=
  existsb (String.eqb x) l.

(** [s.split(sep, 1)] for a one-character separator: at most one split,
    at the first occurrence; a string without the separator comes back
    whole, as the only element. *)
Fixpoint split1 (sep : ascii) (s : string) : list string :=
  match s with
  | EmptyString => [EmptyString]
  | String c s' =>
      if Ascii.eqb c sep then [EmptyString; s']
      else match split1 sep s' with
           | a :: rest => String c a :: rest
           | [] => [String c EmptyString]
           end
  end.

(** Truth value of a list: [if l:] *)
Definition nonempty {A : Type} (l : list A) : bool :=
  match l with [] => false | _ :: _ => true end.

(** ** [int(s)] and [float(s)] *)

(** White space as [int()] and [float()] skip it around the number. *)
Definition is_space (c : ascii) : bool :=
  let n := nat_of_ascii c in
  ((9 <=? n) && (n <=? 13) || (28 <=? n) && (n <=? 32))%nat.

Definition is_digit (c : ascii) : bool :=
  let n := nat_of_ascii c in ((48 <=? n) && (n <=? 57))%nat.

Definition digit_val (c : ascii) : Z := Z.of_nat (nat_of_ascii c - 48).

Fixpoint lstrip (s : string) : string :=
  match s with
  | String c s' => if is_space c then lstrip s' else s
  | EmptyString => EmptyString
  end.

Fixpoint rstrip (s : string) : string :=
  match s with
  | EmptyString => EmptyString
  | String c s' =>
      match rstrip s' with
      | EmptyString => if is_space c then EmptyString else String c EmptyString
      | r => String c r
      end
  end.

Definition strip (s : string) : string := rstrip (lstrip s).

(** Decimal digits, single underscores allowed between two digits. *)
Fixpoint digits (s : string) (acc : Z) (after_digit : bool) : option Z :=
  match s with
  | EmptyString => if after_digit then Some acc else None
  | String c s' =>
      if is_digit c then digits s' (10 * acc + digit_val c)%Z true
      else if Ascii.eqb c "_" then
        if after_digit then digits s' acc false else None
      else None
  end.

(** [int(s)] in base ten; [None] stands for [ValueError].  (The interpreter's
    limit on the number of digits of a conversion is not modelled.) *)
Definition py_int (s : string) : option Z :=
  match strip s with
  | String "+" r => digits r 0%Z false
  | String "-" r => option_map Z.opp (digits r 0%Z false)
  | t => digits t 0%Z false
  end.

(** The rest of [s] after the digits (and inner underscores) that continue
    a digit part. *)
Fixpoint skip_digitpart (s : string) : string :=
  match s with
  | EmptyString => s
  | String c s' =>
      if is_digit c then skip_digitpart s'
      else if Ascii.eqb c "_" then
        match s' with
        | String d s'' => if is_digit d then skip_digitpart s'' else s
        | EmptyString => s
        end
      else s
  end.

(** [digitpart ::= digit (["_"] digit)*]; the rest of the input on success. *)
Definition digitpart (s : string) : option string :=
  match s with
  | String c s' => if is_digit c then Some (skip_digitpart s') else None
  | EmptyString => None
  end.

(** [number ::= [digitpart] "." digitpart | digitpart ["."]] (the second
    alternative also takes the digits after the point). *)
Definition number (s : string) : option string :=
  match digitpart s with
  | Some r =>
      match r with
      | String "." r' =>
          match digitpart r' with Some r'' => Some r'' | None => Some r' end
      | _ => Some r
      end
  | None =>
      match s with
      | String "." r' => digitpart r'
      | _ => None
      end
  end.

Definition skip_sign (s : string) : string :=
  match s with
  | String "+" r => r
  | String "-" r => r
  | _ => s
  end.

(** [floatnumber ::= number [("e" | "E") [sign] digitpart]], the whole input. *)
Definition is_floatnumber (s : string) : bool :=
  match number s with
  | Some EmptyString => true
  | Some (String c r) =>
      if Ascii.eqb c "e" || Ascii.eqb c "E" then
        match digitpart (skip_sign r) with
        | Some EmptyString => true
        | _ => false
        end
      else false
  | None => false
  end.

(** The strings [float()] accepts, white space already stripped. *)
Definition is_float_literal (s : string) : bool :=
  let t := skip_sign s in
  str_in (lower t) ["inf"; "infinity"; "nan"] || is_floatnumber t.

(** ** Values *)

(** The values a service payload can hold: what the key=value typing
    produces and what [json.loads] can return. *)
#[warnings="-register-all"]
Inductive pyval : Type :=
| PNone
| PBool (b : bool)
| PInt (n : Z)
| PFloat (f : float)
| PStr (s : string)
| PList (xs : list pyval)
| PDict (kvs : list (string * pyval)).

(** A [dict] with string keys, in insertion order. *)
Definition dict : Type := list (string * pyval).

(** [d.get(k)] *)
Fixpoint dict_get (k : string) (d : dict) : option pyval :=
  match d with
  | [] => None
  | (k', v) :: r => if String.eqb k k' then Some v else dict_get k r
  end.

(** [k in d] *)
Definition dict_has (k : string) (d : dict) : bool :=
  match dict_get k d with Some _ => true | None => false end.

(** [d[k] = v]: an existing key keeps its place, a new one goes last. *)
Fixpoint dict_set (k : string) (v : pyval) (d : dict) : dict :=
  match d with
  | [] => [(k, v)]
  | (k', v') :: r =>
      if String.eqb k k' then (k, v) :: r else (k', v') :: dict_set k v r
  end.

(** Truth value: [if v:] and [v or default]. *)
Definition truthy (v : pyval) : bool :=
  match v with
  | PNone => false
  | PBool b => b
  | PInt n => negb (n =? 0)%Z
  | PFloat f => negb (PrimFloat.eqb f 0%float)
  | PStr s => negb (String.eqb s EmptyString)
  | PList xs => nonempty xs
  | PDict kvs => nonempty kvs
  end.

(** [str(n)] for an integer *)
Definition str_of_int (n : Z) : string := NilZero.string_of_int (Z.to_int n).

End Py.


(* ================================================================== *)
(** * models.py: exceptions; the trace of a command *)
(* ================================================================== *)

Module Models.
Import Py.

(** [ApiError.__str__] *)
Definition ApiError_str (message : string) (status_code : option Z) : string :=
  match status_code with
  | Some code =>
      (* [if self.status_code:] a status of 0 counts as absent *)
      if (code =? 0)%Z then message
      else "[" ++ str_of_int code ++ "] " ++ message
  | None => message
  end.

(** The message [CriticalActionError.__init__] builds. *)
Definition CriticalActionError_message (entity_id action : string) : string :=
  "⚠️  CRITICAL ACTION REQUIRES CONFIRMATION" ++ nl ++ nl
  ++ "Action: " ++ action ++ " on " ++ entity_id ++ nl ++ nl
  ++ "This is a critical operation that requires explicit user approval." ++ nl
  ++ "Ask the user for confirmation (e.g., 'Do you want to proceed?')." ++ nl
  ++ "If the user confirms (e.g., says 'Yes', 'OK', 'Confirm'), retry with --force flag."
  ++ nl ++ nl
  ++ "Example: moltbot-ha " ++ action ++ " " ++ entity_id ++ " --force".

(** The exceptions the modelled code raises or lets through.  [TypeError],
    [AttributeError] and [KeyError] arise only from a JSON payload of an
    unexpected shape; [Exit] is [typer.Exit(code)]. *)
Inductive exn : Type :=
| CriticalActionError (entity_id action : string)
| PermissionError (msg : string)
| ApiError (message : string) (status_code : option Z)
| TypeError
| AttributeError
| KeyError (key : string)
| Exit (code : Z).

(** [str(e)] for the exceptions whose text the commands print. *)
Definition exn_str (e : exn) : string :=
  match e with
  | CriticalActionError entity_id action =>
      CriticalActionError_message entity_id action
  | PermissionError msg => msg
  | ApiError message status_code => ApiError_str message status_code
  | TypeError => "TypeError"
  | AttributeError => "AttributeError"
  | KeyError key => key
  | Exit _ => EmptyString
  end.

(** Levels of the [logging] module, as the code uses them. *)
Inductive loglevel : Type := DEBUG | INFO | WARNING | ERROR.

(** What a command does that can be observed from outside.
    - [Log name lvl msg]: a call [logging.getLogger(name).<lvl>(msg)];
      whether the record reaches the log file depends on the configured
      level and is decided by the logging sink, not here.
    - [Print text]: [console.print(text)].
    - [Request method endpoint json]: [session.request], as issued by
      [HomeAssistantClient._make_request] (the client's own debug and info
      lines about the request are folded into this event). *)
Inductive event : Type :=
| Log (name : string) (lvl : loglevel) (msg : string)
| Print (text : string)
| Request (method endpoint : string) (json_data : option pyval).

(** How a computation ends: with a value or with an exception. *)
Inductive result (A : Type) : Type :=
| Return (a : A)
| Raise (e : exn).
Arguments Return {A} a.
Arguments Raise {A} e.

End Models.

(* ================================================================== *)
(** * The monad of the commands: a trace and a result *)
(* ================================================================== *)

Module Run.
Import Models.

Definition M (A : Type) : Type := (list event * result A)%type.

Definition ret {A : Type} (a : A) : M A := ([], Return a).

Definition bind {A B : Type} (m : M A) (k : A -> M B) : M B :=
  match m with
  | (t, Return a) => let (t', r) := k a in ((t ++ t')%list, r)
  | (t, Raise e) => (t, Raise e)
  end.

Definition raise {A : Type} (e : exn) : M A := ([], Raise e).

Definition emit (ev : event) : M unit := ([ev], Return tt).

(** [try: m  except ...: handler]: [handler e = None] when no clause
    catches [e], which then propagates. *)
Definition try_except {A : Type} (m : M A) (handler : exn -> option (M A)) : M A :=
  match m with
  | (t, Return a) => (t, Return a)
  | (t, Raise e) =>
      match handler e with
      | Some h => let (t', r) := h in ((t ++ t')%list, r)
      | None => (t, Raise e)
      end
  end.

Definition trace {A : Type} (m : M A) : list event := fst m.
Definition outcome {A : Type} (m : M A) : result A := snd m.

End Run.

Declare Scope run_scope.
Delimit Scope run_scope with run.
Notation "x <- m ;; k" := (Run.bind m (fun x => k))
  (at level 61, m at next level, right associativity) : run_scope.
Notation "m ;; k" := (Run.bind m (fun _ => k))
  (at level 61, right associativity) : run_scope.
Open Scope run_scope.

(* ================================================================== *)
(** * config.py: the safety policy *)
(* ================================================================== *)

Module Config.

(** [SafetyConfig]; the loader's validation keeps [level] within 0..3. *)
Record SafetyConfig : Type := {
  level : Z;
  critical_domains : list string;
  blocked_entities : list string;
  allowed_entities : list string
}.

(** [SafetyConfig()] *)
Definition SafetyConfig_default : SafetyConfig := {|
  level := 3;
  critical_domains := ["lock"; "alarm_control_panel"; "cover"];
  blocked_entities := [];
  allowed_entities := []
|}.

(** [Config], reduced to the part the commands read after the client has
    been built. *)
Record Config : Type := {
  safety : SafetyConfig
}.

End Config.

(* ================================================================== *)
(** * logger.py *)
(* ================================================================== *)

Module Logger.
Import Models Run.

Definition name : string := "ha_ctl.logger".

(** [log_action(entity_id, action, forced, allowed)] *)
Definition log_action (entity_id action : string) (forced allowed : bool) : M unit :=
  let status := if allowed then "ALLOWED" else "DENIED" in
  let force_flag := if forced then " [FORCED]" else EmptyString in
  let log_message := status ++ ": " ++ action ++ " on " ++ entity_id ++ force_flag in
  if allowed then
    if forced then emit (Log name WARNING log_message)
    else emit (Log name INFO log_message)
  else emit (Log name ERROR log_message).

End Logger.

(* ================================================================== *)
(** * A concrete glob matcher *)
(* ================================================================== *)

Module Fnmatch.

(** [glob_match name pat]: the shell patterns of [fnmatch.fnmatchcase]
    built from [*] (any run of characters), [?] (any one character) and
    ordinary characters.  Bracket expressions are not interpreted: the
    examples below use none.  The theorems do not depend on this matcher;
    they are stated for an arbitrary one. *)
Fixpoint glob (pat : string) : string -> bool :=
  match pat with
  | EmptyString =>
      fun name => match name with EmptyString => true | String _ _ => false end
  | String c p =>
      if Ascii.eqb c "*" then
        fix star (name : string) : bool :=
          glob p name
          || match name with
             | EmptyString => false
             | String _ name' => star name'
             end
      else if Ascii.eqb c "?" then
        fun name =>
          match name with EmptyString => false | String _ name' => glob p name' end
      else
        fun name =>
          match name with
          | EmptyString => false
          | String d name' => Ascii.eqb c d && glob p name'
          end
  end.

Definition glob_match (name pat : string) : bool := glob pat name.

End Fnmatch.

(* ================================================================== *)
(** * safety.py *)
(* ================================================================== *)

Module Safety.
Import Py Models Run Config.

Definition name : string := "ha_ctl.safety".

(** The text of the two [PermissionError]s. *)
Definition blocked_message (entity_id : string) : string :=
  "❌ Entity " ++ entity_id ++ " is BLOCKED in configuration." ++ nl
  ++ "This entity cannot be controlled via moltbot-ha for safety reasons." ++ nl
  ++ "Remove from blocked_entities in config to allow.".

Definition not_allowed_message (entity_id : string) : string :=
  "❌ Entity " ++ entity_id ++ " is not in the allowlist." ++ nl
  ++ "Add to allowed_entities in config to allow access.".

(** [action in ["turn_on", "turn_off", "toggle", "set"]] *)
Definition write_actions : list string := ["turn_on"; "turn_off"; "toggle"; "set"].

(** [get_domain(entity_id)] *)
Definition get_domain (entity_id : string) : string :=
  nth 0 (split1 "." entity_id) EmptyString.

Section WithMatcher.

(** [fnmatch.fnmatch(name, pattern)] *)
Variable fnmatch : string -> string -> bool.

(** [is_blocked(entity_id, blocked_list)] *)
Fixpoint is_blocked (entity_id : string) (blocked_list : list string) : bool :=
  match blocked_list with
  | [] => false
  | pattern :: rest =>
      if fnmatch entity_id pattern then true else is_blocked entity_id rest
  end.

(** The loop of [is_allowed]. *)
Fixpoint is_allowed_loop (entity_id : string) (allowed_list : list string) : bool :=
  match allowed_list with
  | [] => false
  | pattern :: rest =>
      if fnmatch entity_id pattern then true else is_allowed_loop entity_id rest
  end.

(** [is_allowed(entity_id, allowed_list)] *)
Definition is_allowed (entity_id : string) (allowed_list : list string) : bool :=
  if negb (nonempty allowed_list) then true
  else is_allowed_loop entity_id allowed_list.

(** [check_action(entity_id, action, config, force)]: returns ([Return tt])
    when the action may go ahead, raises [PermissionError] when it is
    refused and [CriticalActionError] when it needs confirmation. *)
Definition check_action (entity_id action : string)
    (config : option SafetyConfig) (force : bool) : M unit :=
  let config :=
    match config with Some c => c | None => SafetyConfig_default end in
  if (level config =? 0)%Z then
    emit (Log name DEBUG
            ("Safety level 0: allowing " ++ action ++ " on " ++ entity_id))
  else if is_blocked entity_id (blocked_entities config) then
    emit (Log name ERROR
            ("BLOCKED: " ++ action ++ " on " ++ entity_id
             ++ " (entity in blocked list)")) ;;
    raise (PermissionError (blocked_message entity_id))
  else if nonempty (allowed_entities config)
          && negb (is_allowed entity_id (allowed_entities config)) then
    emit (Log name ERROR
            ("DENIED: " ++ action ++ " on " ++ entity_id ++ " (not in allowlist)")) ;;
    raise (PermissionError (not_allowed_message entity_id))
  else
    let domain := nth 0 (split1 "." entity_id) EmptyString in
    (if (level config >=? 3)%Z && str_in domain (critical_domains config) then
       if negb force then
         emit (Log name WARNING
                 ("CRITICAL: " ++ action ++ " on " ++ entity_id
                  ++ " requires confirmation")) ;;
         raise (CriticalActionError entity_id action)
       else
         emit (Log name WARNING
                 ("FORCED: " ++ action ++ " on " ++ entity_id
                  ++ " (critical domain, using --force)"))
     else ret tt) ;;
    (if (level config >=? 2)%Z && str_in action write_actions then
       if negb force then
         emit (Log name INFO
                 ("CONFIRM: " ++ action ++ " on " ++ entity_id
                  ++ " (safety level 2)")) ;;
         raise (CriticalActionError entity_id action)
       else ret tt
     else ret tt) ;;
    emit (Log name DEBUG ("ALLOWED: " ++ action ++ " on " ++ entity_id)).

End WithMatcher.

End Safety.

(* ================================================================== *)
(** * client.py *)
(* ================================================================== *)

Module Client.
Import Py Models Run.

(** What the hub, the HTTP session and the decoding of the response in
    [_make_request] give back for a request: the decoded JSON body, or the
    message and status code of the [ApiError] raised. *)
Definition hub_t : Type :=
  string -> string -> option pyval -> pyval + (string * option Z).

Section WithHub.

Variable hub : hub_t.

(** [HomeAssistantClient._make_request(method, endpoint, json_data)] *)
Definition _make_request (method endpoint : string) (json_data : option pyval)
  : M pyval :=
  emit (Request method endpoint json_data) ;;
  match hub method endpoint json_data with
  | inl body => ret body
  | inr (message, status_code) => raise (ApiError message status_code)
  end.

(** [HomeAssistantClient.call_service(domain, service, data)] *)
Definition call_service (domain service : string) (data : pyval) : M pyval :=
  let endpoint := "/api/services/" ++ domain ++ "/" ++ service in
  let service_data := if truthy data then data else PDict [] in
  _make_request "POST" endpoint (Some service_data).

(** [HomeAssistantClient.call_service_for_entity(entity_id, service, data)] *)
Definition call_service_for_entity (entity_id service : string)
    (data : option dict) : M pyval :=
  let domain := nth 0 (split1 "." entity_id) EmptyString in
  let service_data :=
    match data with
    | Some d => if nonempty d then d else []
    | None => []
    end in
  let service_data := dict_set "entity_id" (PStr entity_id) service_data in
  call_service domain service (PDict service_data).

End WithHub.

End Client.

(* ================================================================== *)
(** * cli.py: the mutating commands *)
(* ================================================================== *)

Module Cli.
Import Py Models Run Config.

Section Commands.

(** The environment of a command. *)
Variable fnmatch : string -> string -> bool.       (* fnmatch.fnmatch *)
Variable strtod : string -> float.                 (* value of a float literal *)
Variable json_loads : string -> pyval + string.    (* json.loads, or the error text *)
Variable py_str : pyval -> string.                 (* str(v), as an f-string formats v *)
Variable hub : Client.hub_t.
(** The configuration [get_config()] returns (loaded once per process). *)
Variable loaded : Config.

Definition get_config : M Config := ret loaded.

(** [float(value)]: [None] stands for [ValueError]. *)
Definition py_float (value : string) : option float :=
  if is_float_literal (strip value) then Some (strtod value) else None.

(** The typing of a value in [set] (cli.py, lines 311-326). *)
Definition set_parse_value (value : string) : pyval :=
  if str_in (lower value) ["true"; "yes"; "on"] then PBool true
  else if str_in (lower value) ["false"; "no"; "off"] then PBool false
  else
    match py_int value with
    | Some n => PInt n
    | None =>
        match py_float value with
        | Some f => PFloat f
        | None => PStr value
        end
    end.

(** The typing of a value in [call] (cli.py, lines 398-410). *)
Definition call_parse_value (value : string) : pyval :=
  if str_in (lower value) ["true"; "yes"] then PBool true
  else if str_in (lower value) ["false"; "no"] then PBool false
  else
    match py_int value with
    | Some n => PInt n
    | None =>
        match py_float value with
        | Some f => PFloat f
        | None => PStr value
        end
    end.

(** The loop over [attributes] in [set]. *)
Fixpoint set_parse_attributes (attributes : list string) (data : dict) : M dict :=
  match attributes with
  | [] => ret data
  | attr_str :: rest =>
      if negb (contains_char "=" attr_str) then
        emit (Print ("[red]Error:[/red] Invalid attribute format: " ++ attr_str)) ;;
        emit (Print "[yellow]Expected format:[/yellow] key=value") ;;
        raise (Exit 1)
      else
        let parts := split1 "=" attr_str in
        let key := nth 0 parts EmptyString in
        let value := nth 1 parts EmptyString in
        set_parse_attributes rest (dict_set key (set_parse_value value) data)
  end.

(** The loop over [params] in [call]. *)
Fixpoint call_parse_params (params : list string) (data : dict) : M dict :=
  match params with
  | [] => ret data
  | param_str :: rest =>
      if negb (contains_char "=" param_str) then
        emit (Print ("[red]Error:[/red] Invalid parameter format: " ++ param_str)) ;;
        raise (Exit 1)
      else
        let parts := split1 "=" param_str in
        let key := nth 0 parts EmptyString in
        let value := nth 1 parts EmptyString in
        call_parse_params rest (dict_set key (call_parse_value value) data)
  end.

(** The [except] clauses of [on], [off], [toggle] and [set]; [entity_id],
    [action] and [force] are what the clause for [PermissionError] hands
    to [log_action]. *)
Definition entity_handlers (entity_id action : string) (force : bool)
    (e : exn) : option (M unit) :=
  match e with
  | CriticalActionError _ _ =>
      Some (emit (Print (exn_str e)) ;; raise (Exit 1))
  | PermissionError _ =>
      Some (emit (Print (exn_str e)) ;;
            Logger.log_action entity_id action force false ;;
            raise (Exit 1))
  | ApiError _ _ =>
      Some (emit (Print ("[red]Error:[/red] " ++ exn_str e)) ;; raise (Exit 1))
  | _ => None
  end.

(** The common body of [on], [off] and [toggle], which differ in the
    service they call and in the last word of the message. *)
Definition entity_command (service done : string) (entity_id : string)
    (force : bool) : M unit :=
  try_except
    (config <- get_config ;;
     Safety.check_action fnmatch entity_id service (Some (safety config)) force ;;
     _ <- Client.call_service_for_entity hub entity_id service None ;;
     Logger.log_action entity_id service force true ;;
     emit (Print ("[green]✓[/green] " ++ entity_id ++ " " ++ done)))
    (entity_handlers entity_id service force).

Definition on : string -> bool -> M unit := entity_command "turn_on" "turned on".
Definition off : string -> bool -> M unit := entity_command "turn_off" "turned off".
Definition toggle : string -> bool -> M unit := entity_command "toggle" "toggled".

(** [set(entity_id, attributes, force)] *)
Definition set (entity_id : string) (attributes : list string) (force : bool)
  : M unit :=
  try_except
    (config <- get_config ;;
     data <- set_parse_attributes attributes [("entity_id", PStr entity_id)] ;;
     Safety.check_action fnmatch entity_id "set" (Some (safety config)) force ;;
     let domain := nth 0 (split1 "." entity_id) EmptyString in
     _ <- Client.call_service hub domain "turn_on" (PDict data) ;;
     Logger.log_action entity_id "set" force true ;;
     emit (Print ("[green]✓[/green] " ++ entity_id ++ " updated")))
    (entity_handlers entity_id "set" force).

(** ["entity_id" in data], for whatever [json.loads] returned. *)
Definition has_entity_id (data : pyval) : M bool :=
  match data with
  | PDict kvs => ret (dict_has "entity_id" kvs)
  | PList xs =>
      ret (existsb (fun x => match x with
                             | PStr s => String.eqb s "entity_id"
                             | _ => false
                             end) xs)
  | PStr s => ret (str_contains "entity_id" s)
  | _ => raise TypeError
  end.

(** [data["entity_id"]]: a list or a string takes no string index. *)
Definition get_entity_id (data : pyval) : M pyval :=
  match data with
  | PDict kvs =>
      match dict_get "entity_id" kvs with
      | Some v => ret v
      | None => raise (KeyError "entity_id")
      end
  | _ => raise TypeError
  end.

(** [check_action] on the value found under [entity_id]: a string is
    checked as usual; on any other value the level-0 exit still returns,
    [fnmatch] raises [TypeError] as soon as a pattern is tried, and
    otherwise [entity_id.split] raises [AttributeError]. *)
Definition check_action_value (entity_id : pyval) (action : string)
    (config : SafetyConfig) (force : bool) : M unit :=
  match entity_id with
  | PStr s => Safety.check_action fnmatch s action (Some config) force
  | v =>
      if (level config =? 0)%Z then
        emit (Log Safety.name DEBUG
                ("Safety level 0: allowing " ++ action ++ " on " ++ py_str v))
      else if nonempty (blocked_entities config) then raise TypeError
      else if nonempty (allowed_entities config) then raise TypeError
      else raise AttributeError
  end.

(** The [except] clauses of [call]. *)
Definition call_handlers (e : exn) : option (M unit) :=
  match e with
  | CriticalActionError _ _ =>
      Some (emit (Print (exn_str e)) ;; raise (Exit 1))
  | PermissionError _ =>
      Some (emit (Print (exn_str e)) ;; raise (Exit 1))
  | ApiError _ _ =>
      Some (emit (Print ("[red]Error:[/red] " ++ exn_str e)) ;; raise (Exit 1))
  | _ => None
  end.

(** [call(service, params, json_data, force)] *)
Definition call (service : string) (params : list string)
    (json_data : option string) (force : bool) : M unit :=
  try_except
    (config <- get_config ;;
     if negb (contains_char "." service) then
       emit (Print ("[red]Error:[/red] Invalid service format: " ++ service)) ;;
       emit (Print "[yellow]Expected format:[/yellow] domain.service") ;;
       raise (Exit 1)
     else
       let parts := split1 "." service in
       let domain := nth 0 parts EmptyString in
       let service_name := nth 1 parts EmptyString in
       data <-
         (match json_data with
          | Some (String c j) =>
              match json_loads (String c j) with
              | inl v => ret v
              | inr e =>
                  emit (Print ("[red]Error:[/red] Invalid JSON: " ++ e)) ;;
                  raise (Exit 1)
              end
          | _ =>
              d <- call_parse_params params [] ;;
              ret (PDict d)
          end) ;;
       present <- has_entity_id data ;;
       (if present && negb force then
          entity_id <- get_entity_id data ;;
          check_action_value entity_id service_name (safety config) force
        else ret tt) ;;
       _ <- Client.call_service hub domain service_name data ;;
       emit (Print ("[green]✓[/green] Service " ++ service ++ " called successfully")))
    call_handlers.

End Commands.

End Cli.

(* ================================================================== *)
(** * Properties of the policy engine *)
(* ================================================================== *)

Import Py Models Run Config.

(** [entity_id] matches one of [patterns]. *)
Definition matches_any (fnmatch : string -> string -> bool)
    (entity_id : string) (patterns : list string) : Prop :=
  exists pattern, In pattern patterns /\ fnmatch entity_id pattern = true.

(** The policy with its allowlist emptied. *)
Definition without_allowlist (config : SafetyConfig) : SafetyConfig :=
  {| level := level config;
     critical_domains := critical_domains config;
     blocked_entities := blocked_entities config;
     allowed_entities := [] |}.

(** The three ways the policy engine can answer: it returns (allowed),
    raises [PermissionError] (denied) or raises [CriticalActionError]
    (confirmation required).  Any other exception would be an error of
    the input, not an answer. *)
Definition is_policy_outcome (r : result unit) : bool :=
  match r with
  | Return _ => true
  | Raise (PermissionError _) => true
  | Raise (CriticalActionError _ _) => true
  | Raise _ => false
  end.

(** Policies of the examples. *)
Definition level3_lock : SafetyConfig :=
  {| level := 3; critical_domains := ["lock"];
     blocked_entities := []; allowed_entities := [] |}.

Definition level3_outdoor_blocked : SafetyConfig :=
  {| level := 3; critical_domains := ["lock"; "alarm_control_panel"; "cover"];
     blocked_entities := ["switch.outdoor_*"]; allowed_entities := [] |}.

Definition level0_lock_blocked : SafetyConfig :=
  {| level := 0; critical_domains := ["lock"];
     blocked_entities := ["lock.*"]; allowed_entities := [] |}.

Definition level1_lights_only : SafetyConfig :=
  {| level := 1; critical_domains := ["lock"];
     blocked_entities := []; allowed_entities := ["light.*"] |}.

Definition level2_open : SafetyConfig :=
  {| level := 2; critical_domains := ["lock"];
     blocked_entities := []; allowed_entities := [] |}.

Section SafetyFacts.

Variable fnmatch : string -> string -> bool.

Lemma str_in_In (x : string) (l : list string) :
  str_in x l = true <-> In x l.
Proof.
  unfold str_in. rewrite existsb_exists. split.
  - intros [y [Hy Heq]]. apply String.eqb_eq in Heq. now subst.
  - intros H. exists x. split; [exact H | apply String.eqb_refl].
Qed.

Lemma str_in_not_In (x : string) (l : list string) :
  ~ In x l -> str_in x l = false.
Proof.
  intros H. destruct (str_in x l) eqn:E; [|reflexivity].
  apply str_in_In in E. contradiction.
Qed.

Lemma is_blocked_matches (entity_id : string) (l : list string) :
  Safety.is_blocked fnmatch entity_id l = true <-> matches_any fnmatch entity_id l.
Proof.
  unfold matches_any. induction l as [|p l IH]; simpl.
  - split; [discriminate | intros [q [[] _]]].
  - destruct (fnmatch entity_id p) eqn:E.
    + split; [|reflexivity]. intros _. exists p. auto.
    + rewrite IH. split.
      * intros [q [Hin Hq]]. exists q. auto.
      * intros [q [[Heq|Hin] Hq]]; [subst; congruence | exists q; auto].
Qed.

Lemma is_allowed_loop_matches (entity_id : string) (l : list string) :
  Safety.is_allowed_loop fnmatch entity_id l = true
  <-> matches_any fnmatch entity_id l.
Proof.
  unfold matches_any. induction l as [|p l IH]; simpl.
  - split; [discriminate | intros [q [[] _]]].
  - destruct (fnmatch entity_id p) eqn:E.
    + split; [|reflexivity]. intros _. exists p. auto.
    + rewrite IH. split.
      * intros [q [Hin Hq]]. exists q. auto.
      * intros [q [[Heq|Hin] Hq]]; [subst; congruence | exists q; auto].
Qed.

(** An entity passes the allowlist test of [check_action] exactly when the
    list is empty or one of its patterns matches. *)
Lemma allowlist_gate (entity_id : string) (l : list string) :
  nonempty l && negb (Safety.is_allowed fnmatch entity_id l) = false
  <-> l = [] \/ matches_any fnmatch entity_id l.
Proof.
  unfold Safety.is_allowed. destruct l as [|p l].
  - simpl. split; auto.
  - change (nonempty (p :: l)) with true. cbn [negb andb].
    rewrite negb_false_iff, is_allowed_loop_matches.
    split; [auto | intros [H|H]; [discriminate | exact H]].
Qed.

Lemma allowlist_miss (entity_id : string) (l : list string) :
  l <> [] -> ~ matches_any fnmatch entity_id l ->
  nonempty l && negb (Safety.is_allowed fnmatch entity_id l) = true.
Proof.
  intros Hne Hno.
  destruct (nonempty l && negb (Safety.is_allowed fnmatch entity_id l)) eqn:E;
    [reflexivity|].
  apply allowlist_gate in E. destruct E; contradiction.
Qed.

Lemma level_nonzero (config : SafetyConfig) :
  level config <> 0%Z -> (level config =? 0)%Z = false.
Proof. intros H. now apply Z.eqb_neq. Qed.

Lemma geb_true (n m : Z) : (m <= n)%Z -> (n >=? m)%Z = true.
Proof. intros H. rewrite Z.geb_leb. now apply Z.leb_le. Qed.

Lemma geb_false (n m : Z) : (n < m)%Z -> (n >=? m)%Z = false.
Proof. intros H. rewrite Z.geb_leb. now apply Z.leb_gt. Qed.

(** Whatever the request, [check_action] ends in one of its three answers. *)
Lemma check_action_answers (entity_id action : string)
    (config : option SafetyConfig) (force : bool) :
  is_policy_outcome
    (outcome (Safety.check_action fnmatch entity_id action config force)) = true.
Proof.
  unfold Safety.check_action.
  set (c := match config with Some c => c | None => SafetyConfig_default end).
  destruct (level c =? 0)%Z; [reflexivity|].
  destruct (Safety.is_blocked fnmatch entity_id (blocked_entities c));
    [reflexivity|].
  destruct (nonempty (allowed_entities c)
            && negb (Safety.is_allowed fnmatch entity_id (allowed_entities c)));
    [reflexivity|].
  destruct ((level c >=? 3)%Z
            && str_in (nth 0 (split1 "." entity_id) EmptyString)
                 (critical_domains c)),
           ((level c >=? 2)%Z && str_in action Safety.write_actions),
           force; reflexivity.
Qed.

End SafetyFacts.

Definition level1_open : SafetyConfig :=
  {| level := 1; critical_domains := ["lock"];
     blocked_entities := []; allowed_entities := [] |}.

Lemma split1_no_sep (sep : ascii) (s : string) :
  contains_char sep s = false -> split1 sep s = [s].
Proof.
  induction s as [|c s IH]; simpl; [reflexivity|].
  intros H. apply orb_false_iff in H. destruct H as [Hc Hs].
  rewrite Ascii.eqb_sym, Hc, (IH Hs). reflexivity.
Qed.

Section PolicyClaims.

Variable fnmatch : string -> string -> bool.

(** C5.  With [level == 0] the engine allows every request: whatever the
    entity id, the action and the force flag, [check_action] returns, having
    logged one debug line; the blocklist is not consulted. *)
Theorem C5_level0_allows_everything
    (entity_id action : string) (config : SafetyConfig) (force : bool) :
  level config = 0%Z ->
  Safety.check_action fnmatch entity_id action (Some config) force
  = ([Log Safety.name DEBUG
        ("Safety level 0: allowing " ++ action ++ " on " ++ entity_id)],
     Return tt).
Proof.
  intros H. unfold Safety.check_action. rewrite H. reflexivity.
Qed.

(** C1 (amended).  For every policy whose level is not 0 and every force
    flag, an entity id that matches a pattern of [blocked_entities] is
    denied: [check_action] raises the [PermissionError] of a blocked entity,
    with [force] as well as without. *)
Theorem C1_blocklist_not_bypassed_by_force
    (entity_id action : string) (config : SafetyConfig) (force : bool) :
  level config <> 0%Z ->
  matches_any fnmatch entity_id (blocked_entities config) ->
  Safety.check_action fnmatch entity_id action (Some config) force
  = ([Log Safety.name ERROR
        ("BLOCKED: " ++ action ++ " on " ++ entity_id
         ++ " (entity in blocked list)")],
     Raise (PermissionError (Safety.blocked_message entity_id))).
Proof.
  intros Hlvl Hblk. apply is_blocked_matches in Hblk.
  unfold Safety.check_action.
  rewrite (level_nonzero _ Hlvl), Hblk. reflexivity.
Qed.

(** C6.  Under a policy of level 1 or more, for an entity no blocked
    pattern matches: if the allowlist is not empty and none of its patterns
    matches, the request is denied; if the allowlist is empty or one of its
    patterns matches, the allowlist denies nothing and the answer is the one
    the rules after it give, that is the answer of the same policy without
    an allowlist. *)
Theorem C6_allowlist_gate
    (entity_id action : string) (config : SafetyConfig) (force : bool) :
  (1 <= level config)%Z ->
  Safety.is_blocked fnmatch entity_id (blocked_entities config) = false ->
  (allowed_entities config <> [] ->
   ~ matches_any fnmatch entity_id (allowed_entities config) ->
   Safety.check_action fnmatch entity_id action (Some config) force
   = ([Log Safety.name ERROR
         ("DENIED: " ++ action ++ " on " ++ entity_id ++ " (not in allowlist)")],
      Raise (PermissionError (Safety.not_allowed_message entity_id))))
  /\
  (allowed_entities config = []
   \/ matches_any fnmatch entity_id (allowed_entities config) ->
   Safety.check_action fnmatch entity_id action (Some config) force
   = Safety.check_action fnmatch entity_id action
       (Some (without_allowlist config)) force
   /\ forall msg,
       outcome (Safety.check_action fnmatch entity_id action (Some config) force)
       <> Raise (PermissionError msg)).
Proof.
  intros Hlvl Hblk.
  assert (Hnz : (level config =? 0)%Z = false) by (apply Z.eqb_neq; lia).
  split.
  - intros Hne Hmiss. unfold Safety.check_action.
    rewrite Hnz, Hblk, (allowlist_miss fnmatch _ _ Hne Hmiss). reflexivity.
  - intros Hpass. apply allowlist_gate in Hpass.
    unfold Safety.check_action, without_allowlist.
    cbn [level critical_domains blocked_entities allowed_entities].
    rewrite Hnz, Hblk, Hpass.
    change (nonempty (@nil string)) with false. cbn [andb].
    split; [reflexivity|].
    intros msg.
    destruct ((level config >=? 3)%Z
              && str_in (nth 0 (split1 "." entity_id) EmptyString)
                   (critical_domains config)),
             ((level config >=? 2)%Z && str_in action Safety.write_actions),
             force; cbn; discriminate.
Qed.

(** C4.  Under a policy of level 3 or more, for an entity that passes the
    blocklist and the allowlist and whose domain is critical: without
    [force] the engine asks for confirmation ([CriticalActionError]); with
    [force] the critical-domain rule only logs a warning, the later rules
    run, and the request is allowed. *)
Theorem C4_critical_domain_rule
    (entity_id action : string) (config : SafetyConfig) :
  (3 <= level config)%Z ->
  In (Safety.get_domain entity_id) (critical_domains config) ->
  Safety.is_blocked fnmatch entity_id (blocked_entities config) = false ->
  allowed_entities config = []
  \/ matches_any fnmatch entity_id (allowed_entities config) ->
  Safety.check_action fnmatch entity_id action (Some config) false
  = ([Log Safety.name WARNING
        ("CRITICAL: " ++ action ++ " on " ++ entity_id
         ++ " requires confirmation")],
     Raise (CriticalActionError entity_id action))
  /\
  Safety.check_action fnmatch entity_id action (Some config) true
  = ([Log Safety.name WARNING
        ("FORCED: " ++ action ++ " on " ++ entity_id
         ++ " (critical domain, using --force)");
      Log Safety.name DEBUG ("ALLOWED: " ++ action ++ " on " ++ entity_id)],
     Return tt).
Proof.
  intros Hlvl Hcrit Hblk Hpass.
  apply allowlist_gate in Hpass. apply str_in_In in Hcrit.
  unfold Safety.get_domain in Hcrit.
  assert (Hnz : (level config =? 0)%Z = false) by (apply Z.eqb_neq; lia).
  unfold Safety.check_action.
  rewrite Hnz, Hblk, Hpass, Hcrit, (geb_true _ 3 Hlvl).
  split; [reflexivity|].
  destruct ((level config >=? 2)%Z && str_in action Safety.write_actions);
    reflexivity.
Qed.

(** C7.  Under a policy of level 2 or more, a write action ([turn_on],
    [turn_off], [toggle], [set]) without [force], on an entity that passes
    the blocklist and the allowlist and that the critical-domain rule does
    not concern (its domain is not critical, or the level is below 3),
    requires confirmation. *)
Theorem C7_write_gate
    (entity_id action : string) (config : SafetyConfig) :
  (2 <= level config)%Z ->
  In action ["turn_on"; "turn_off"; "toggle"; "set"] ->
  Safety.is_blocked fnmatch entity_id (blocked_entities config) = false ->
  allowed_entities config = []
  \/ matches_any fnmatch entity_id (allowed_entities config) ->
  ~ In (Safety.get_domain entity_id) (critical_domains config)
  \/ (level config < 3)%Z ->
  Safety.check_action fnmatch entity_id action (Some config) false
  = ([Log Safety.name INFO
        ("CONFIRM: " ++ action ++ " on " ++ entity_id ++ " (safety level 2)")],
     Raise (CriticalActionError entity_id action)).
Proof.
  intros Hlvl Hact Hblk Hpass Hnc.
  apply allowlist_gate in Hpass.
  assert (Hw : str_in action Safety.write_actions = true)
    by (apply str_in_In; exact Hact).
  assert (Hnz : (level config =? 0)%Z = false) by (apply Z.eqb_neq; lia).
  assert (Hc : (level config >=? 3)%Z
               && str_in (nth 0 (split1 "." entity_id) EmptyString)
                    (critical_domains config) = false).
  { destruct Hnc as [Hnot | Hlt].
    - unfold Safety.get_domain in Hnot.
      rewrite (str_in_not_In _ _ Hnot). apply andb_false_r.
    - now rewrite (geb_false _ 3 Hlt). }
  unfold Safety.check_action.
  rewrite Hnz, Hblk, Hpass, Hc, Hw, (geb_true _ 2 Hlvl). reflexivity.
Qed.

(** C8 (amended).  [check_action] never fails with an input error: for every
    entity id, action, policy and force flag it ends with one of the three
    policy outcomes.  An entity id without a [.] is not rejected: the whole
    id is taken as its domain. *)
Theorem C8_no_input_error
    (entity_id action : string) (config : option SafetyConfig) (force : bool) :
  is_policy_outcome
    (outcome (Safety.check_action fnmatch entity_id action config force)) = true
  /\ (contains_char "." entity_id = false ->
      Safety.get_domain entity_id = entity_id).
Proof.
  split.
  - apply (check_action_answers fnmatch).
  - intros H. unfold Safety.get_domain. now rewrite (split1_no_sep _ _ H).
Qed.

End PolicyClaims.

(* ------------------------------------------------------------------ *)
(** ** The policy engine on concrete requests *)
(* ------------------------------------------------------------------ *)

Lemma glob_lock_examples :
  Fnmatch.glob_match "lock.front_door" "lock.*" = true
  /\ Fnmatch.glob_match "switch.lock_pump" "lock.*" = false
  /\ Fnmatch.glob_match "switch.outdoor_pump" "switch.outdoor_*" = true.
Proof. repeat split; reflexivity. Qed.

(** C5, at a request on a blocked lock with [force]: level 0 allows it. *)
Lemma C5_level0_witness :
  level level0_lock_blocked = 0%Z
  /\ Safety.is_blocked Fnmatch.glob_match "lock.front_door"
       (blocked_entities level0_lock_blocked) = true
  /\ Safety.check_action Fnmatch.glob_match "lock.front_door" "unlock"
       (Some level0_lock_blocked) true
     = ([Log "ha_ctl.safety" DEBUG
           "Safety level 0: allowing unlock on lock.front_door"],
        Return tt).
Proof.
  split; [reflexivity|]. split; [reflexivity|].
  exact (C5_level0_allows_everything Fnmatch.glob_match
           "lock.front_door" "unlock" level0_lock_blocked true eq_refl).
Defined.

(** C1 as stated fails at level 0: the entity matches a blocked pattern,
    yet the request is allowed, not denied. *)
Lemma C1_level0_counterexample :
  matches_any Fnmatch.glob_match "lock.front_door"
    (blocked_entities level0_lock_blocked)
  /\ Safety.check_action Fnmatch.glob_match "lock.front_door" "turn_on"
       (Some level0_lock_blocked) true
     = ([Log "ha_ctl.safety" DEBUG
           "Safety level 0: allowing turn_on on lock.front_door"],
        Return tt)
  /\ (forall msg,
        outcome (Safety.check_action Fnmatch.glob_match "lock.front_door"
                   "turn_on" (Some level0_lock_blocked) true)
        <> Raise (PermissionError msg)).
Proof.
  split; [|split].
  - exists "lock.*". split; [left; reflexivity | reflexivity].
  - reflexivity.
  - intros msg. cbn. discriminate.
Qed.

Lemma outdoor_pump_blocked :
  matches_any Fnmatch.glob_match "switch.outdoor_pump"
    (blocked_entities level3_outdoor_blocked).
Proof. exists "switch.outdoor_*". split; [left; reflexivity | reflexivity]. Defined.

Lemma level3_nonzero : level level3_outdoor_blocked <> 0%Z.
Proof. discriminate. Defined.

(** C1 (amended), at the request [(switch.outdoor_pump, turn_on, force)]
    under a level-3 policy that blocks [switch.outdoor_*]: denied. *)
Lemma C1_blocked_with_force_witness :
  level level3_outdoor_blocked <> 0%Z
  /\ matches_any Fnmatch.glob_match "switch.outdoor_pump"
       (blocked_entities level3_outdoor_blocked)
  /\ Safety.check_action Fnmatch.glob_match "switch.outdoor_pump" "turn_on"
       (Some level3_outdoor_blocked) true
     = ([Log "ha_ctl.safety" ERROR
           "BLOCKED: turn_on on switch.outdoor_pump (entity in blocked list)"],
        Raise (PermissionError (Safety.blocked_message "switch.outdoor_pump"))).
Proof.
  split; [exact level3_nonzero|]. split; [exact outdoor_pump_blocked|].
  exact (C1_blocklist_not_bypassed_by_force Fnmatch.glob_match
           "switch.outdoor_pump" "turn_on" level3_outdoor_blocked true
           level3_nonzero outdoor_pump_blocked).
Defined.

Lemma switch_pump_not_a_light :
  ~ matches_any Fnmatch.glob_match "switch.pump"
      (allowed_entities level1_lights_only).
Proof.
  intros [p [[Hp | []] Hm]]. subst p. discriminate Hm.
Defined.

Lemma kitchen_light_allowed :
  matches_any Fnmatch.glob_match "light.kitchen"
    (allowed_entities level1_lights_only).
Proof. exists "light.*". split; [left; reflexivity | reflexivity]. Defined.

Lemma level1_at_least_1 : (1 <= level level1_lights_only)%Z.
Proof. discriminate. Defined.

Lemma lights_only_nonempty : allowed_entities level1_lights_only <> [].
Proof. discriminate. Defined.

(** C6, under a level-1 policy that allows [light.*] only: a switch is
    denied, a light goes on to the later rules and is allowed. *)
Lemma C6_allowlist_witness :
  (1 <= level level1_lights_only)%Z
  /\ Safety.is_blocked Fnmatch.glob_match "switch.pump"
       (blocked_entities level1_lights_only) = false
  /\ Safety.check_action Fnmatch.glob_match "switch.pump" "turn_on"
       (Some level1_lights_only) false
     = ([Log "ha_ctl.safety" ERROR
           "DENIED: turn_on on switch.pump (not in allowlist)"],
        Raise (PermissionError (Safety.not_allowed_message "switch.pump")))
  /\ Safety.check_action Fnmatch.glob_match "light.kitchen" "turn_on"
       (Some level1_lights_only) false
     = Safety.check_action Fnmatch.glob_match "light.kitchen" "turn_on"
         (Some (without_allowlist level1_lights_only)) false.
Proof.
  split; [exact level1_at_least_1|]. split; [reflexivity|]. split.
  - exact (proj1 (C6_allowlist_gate Fnmatch.glob_match "switch.pump" "turn_on"
                    level1_lights_only false level1_at_least_1 eq_refl)
             lights_only_nonempty switch_pump_not_a_light).
  - exact (proj1 (proj2 (C6_allowlist_gate Fnmatch.glob_match "light.kitchen"
                           "turn_on" level1_lights_only false
                           level1_at_least_1 eq_refl)
                    (or_intror kitchen_light_allowed))).
Defined.

Lemma level3_lock_at_least_3 : (3 <= level level3_lock)%Z.
Proof. discriminate. Defined.

(** C4, on the scenario of the specification: policy
    [{level: 3, criticalDomains: [lock]}] and the request
    [(lock.front_door, turn_on)]: confirmation is required without [force],
    the request is allowed with it. *)
Lemma C4_front_door_witness :
  (3 <= level level3_lock)%Z
  /\ In (Safety.get_domain "lock.front_door") (critical_domains level3_lock)
  /\ Safety.check_action Fnmatch.glob_match "lock.front_door" "turn_on"
       (Some level3_lock) false
     = ([Log "ha_ctl.safety" WARNING
           "CRITICAL: turn_on on lock.front_door requires confirmation"],
        Raise (CriticalActionError "lock.front_door" "turn_on"))
  /\ Safety.check_action Fnmatch.glob_match "lock.front_door" "turn_on"
       (Some level3_lock) true
     = ([Log "ha_ctl.safety" WARNING
           "FORCED: turn_on on lock.front_door (critical domain, using --force)";
         Log "ha_ctl.safety" DEBUG "ALLOWED: turn_on on lock.front_door"],
        Return tt).
Proof.
  split; [exact level3_lock_at_least_3|].
  split; [left; reflexivity|].
  exact (C4_critical_domain_rule Fnmatch.glob_match "lock.front_door" "turn_on"
           level3_lock level3_lock_at_least_3 (or_introl eq_refl) eq_refl
           (or_introl eq_refl)).
Defined.

Lemma level2_at_least_2 : (2 <= level level2_open)%Z.
Proof. discriminate. Defined.

Lemma level2_below_3 : (level level2_open < 3)%Z.
Proof. reflexivity. Defined.

(** C7, under a level-2 policy: toggling a light without [force] requires
    confirmation. *)
Lemma C7_toggle_witness :
  (2 <= level level2_open)%Z
  /\ In "toggle" ["turn_on"; "turn_off"; "toggle"; "set"]
  /\ Safety.check_action Fnmatch.glob_match "light.kitchen" "toggle"
       (Some level2_open) false
     = ([Log "ha_ctl.safety" INFO
           "CONFIRM: toggle on light.kitchen (safety level 2)"],
        Raise (CriticalActionError "light.kitchen" "toggle")).
Proof.
  split; [exact level2_at_least_2|].
  split; [right; right; left; reflexivity|].
  exact (C7_write_gate Fnmatch.glob_match "light.kitchen" "toggle" level2_open
           level2_at_least_2 (or_intror (or_intror (or_introl eq_refl)))
           eq_refl (or_introl eq_refl) (or_intror level2_below_3)).
Defined.

(** C8 as stated fails on an id without [.]: [kitchen] is evaluated like any
    other id, here allowed at level 1 and sent to confirmation at level 2;
    no input error is raised. *)
Lemma C8_no_separator_counterexample :
  contains_char "." "kitchen" = false
  /\ Safety.check_action Fnmatch.glob_match "kitchen" "turn_on"
       (Some level1_open) false
     = ([Log "ha_ctl.safety" DEBUG "ALLOWED: turn_on on kitchen"], Return tt)
  /\ Safety.check_action Fnmatch.glob_match "kitchen" "turn_on"
       (Some level2_open) false
     = ([Log "ha_ctl.safety" INFO
           "CONFIRM: turn_on on kitchen (safety level 2)"],
        Raise (CriticalActionError "kitchen" "turn_on")).
Proof. repeat split; reflexivity. Qed.

(** C8 (amended), at the id [kitchen] under the default policy. *)
Lemma C8_kitchen_witness :
  contains_char "." "kitchen" = false
  /\ is_policy_outcome
       (outcome (Safety.check_action Fnmatch.glob_match "kitchen" "turn_on"
                   None true)) = true
  /\ Safety.get_domain "kitchen" = "kitchen".
Proof.
  split; [reflexivity|].
  pose proof (C8_no_input_error Fnmatch.glob_match "kitchen" "turn_on" None true)
    as [Hp Hd].
  split; [exact Hp | exact (Hd eq_refl)].
Defined.

(* ================================================================== *)
(** * Properties of the commands *)
(* ================================================================== *)

(** The HTTP requests of a trace. *)
Definition is_request (ev : event) : bool :=
  match ev with Request _ _ _ => true | _ => false end.

Definition requests (tr : list event) : list event := filter is_request tr.

(** The records [log_action] wrote: those of the logger of [logger.py]
    (the policy engine writes to the logger of [safety.py]). *)
Definition is_audit_record (ev : event) : bool :=
  match ev with
  | Log name _ _ => String.eqb name Logger.name
  | _ => false
  end.

Definition audit_records (tr : list event) : list event :=
  filter is_audit_record tr.

(** Key and value of a [key=value] token. *)
Definition token_key (token : string) : string :=
  nth 0 (split1 "=" token) EmptyString.

Definition token_value (token : string) : string :=
  nth 1 (split1 "=" token) EmptyString.

(** The payload [set] builds when every token holds an [=]: [entity_id]
    first, then each attribute in turn. *)
Definition set_payload (strtod : string -> float) (entity_id : string)
    (attributes : list string) : dict :=
  fold_left
    (fun data token =>
       dict_set (token_key token)
         (Cli.set_parse_value strtod (token_value token)) data)
    attributes [("entity_id", PStr entity_id)].

(** The four commands that act on one entity. *)
Inductive entity_cmd : Type :=
| CmdOn
| CmdOff
| CmdToggle
| CmdSet (attributes : list string).

(** The action name the command hands to [check_action] and [log_action]. *)
Definition action_of (c : entity_cmd) : string :=
  match c with
  | CmdOn => "turn_on"
  | CmdOff => "turn_off"
  | CmdToggle => "toggle"
  | CmdSet _ => "set"
  end.

(** Every token of [set] holds an [=]: the command gets as far as the
    policy engine. *)
Definition well_formed (c : entity_cmd) : bool :=
  match c with
  | CmdSet attributes => forallb (contains_char "=") attributes
  | _ => true
  end.

(** A hub that answers every request with an empty body. *)
Definition hub_ok : Client.hub_t := fun _ _ _ => inl PNone.

(** A hub that is down. *)
Definition hub_down : Client.hub_t :=
  fun _ _ _ => inr ("Home Assistant is unavailable or starting up.", Some 503%Z).

(** Stand-ins for the parts of the environment the examples never reach. *)
Definition no_json : string -> pyval + string := fun _ => inr "Expecting value".
Definition no_strtod : string -> float := fun _ => 0%float.
Definition no_str : pyval -> string := fun _ => EmptyString.

Section CommandFacts.

Variable fnmatch : string -> string -> bool.
Variable strtod : string -> float.
Variable hub : Client.hub_t.
Variable loaded : Config.

(** Endpoint and payload of the service call of a command. *)
Definition service_call (c : entity_cmd) (entity_id : string) : string * pyval :=
  match c with
  | CmdSet attributes =>
      ("/api/services/" ++ Safety.get_domain entity_id ++ "/turn_on",
       PDict (set_payload strtod entity_id attributes))
  | _ =>
      ("/api/services/" ++ Safety.get_domain entity_id ++ "/" ++ action_of c,
       PDict [("entity_id", PStr entity_id)])
  end.

(** The command itself. *)
Definition run (c : entity_cmd) (entity_id : string) (force : bool) : M unit :=
  match c with
  | CmdOn => Cli.on fnmatch hub loaded entity_id force
  | CmdOff => Cli.off fnmatch hub loaded entity_id force
  | CmdToggle => Cli.toggle fnmatch hub loaded entity_id force
  | CmdSet attributes => Cli.set fnmatch strtod hub loaded entity_id attributes force
  end.

Lemma dict_get_set (k k' : string) (v : pyval) (d : dict) :
  dict_get k (dict_set k' v d)
  = if String.eqb k k' then Some v else dict_get k d.
Proof.
  induction d as [|[k0 v0] d IH]; simpl.
  - reflexivity.
  - destruct (String.eqb_spec k' k0) as [->|Hne]; simpl.
    + destruct (String.eqb k k0); reflexivity.
    + destruct (String.eqb_spec k k0) as [->|Hne'].
      * rewrite (proj2 (String.eqb_neq k0 k')); [reflexivity | congruence].
      * exact IH.
Qed.

Lemma find_snoc {A : Type} (p : A -> bool) (l : list A) (x : A) :
  find p (l ++ [x])
  = match find p l with
    | Some y => Some y
    | None => if p x then Some x else None
    end.
Proof.
  induction l as [|y l IH]; simpl; [reflexivity|].
  destruct (p y); [reflexivity | exact IH].
Qed.

(** A key of the folded payload holds the value of the last token that set
    it, or what the dictionary held before. *)
Lemma fold_payload_lookup (k : string) (attributes : list string) (d : dict) :
  dict_get k
    (fold_left
       (fun data token =>
          dict_set (token_key token)
            (Cli.set_parse_value strtod (token_value token)) data)
       attributes d)
  = match find (fun token => String.eqb k (token_key token)) (rev attributes) with
    | Some token => Some (Cli.set_parse_value strtod (token_value token))
    | None => dict_get k d
    end.
Proof.
  revert d. induction attributes as [|t rest IH]; intros d; simpl.
  - reflexivity.
  - rewrite IH, find_snoc.
    destruct (find _ (rev rest)); [reflexivity|].
    rewrite dict_get_set.
    destruct (String.eqb k (token_key t)); reflexivity.
Qed.

Lemma dict_set_nonempty (k : string) (v : pyval) (d : dict) :
  nonempty (dict_set k v d) = true.
Proof.
  destruct d as [|[k0 v0] d]; simpl; [reflexivity|].
  destruct (String.eqb k k0); reflexivity.
Qed.

(** The payload of [set] is never empty: [data or {}] leaves it as it is. *)
Lemma fold_payload_nonempty (attributes : list string) (d : dict) :
  nonempty d = true ->
  nonempty
    (fold_left
       (fun data token =>
          dict_set (token_key token)
            (Cli.set_parse_value strtod (token_value token)) data)
       attributes d) = true.
Proof.
  revert d. induction attributes as [|t rest IH]; intros d H; simpl.
  - exact H.
  - apply IH, dict_set_nonempty.
Qed.

(** The loop of [set] over well-formed tokens is silent and returns the
    folded payload. *)
Lemma set_parse_attributes_ok (attributes : list string) (d : dict) :
  forallb (contains_char "=") attributes = true ->
  Cli.set_parse_attributes strtod attributes d
  = ret (fold_left
           (fun data token =>
              dict_set (token_key token)
                (Cli.set_parse_value strtod (token_value token)) data)
           attributes d).
Proof.
  revert d. induction attributes as [|t rest IH]; intros d H; simpl in *.
  - reflexivity.
  - apply andb_true_iff in H. destruct H as [Ht Hrest].
    rewrite Ht. simpl. apply IH, Hrest.
Qed.

(** The loop of [set] issues no request and writes no log record. *)
Lemma set_parse_attributes_prints (attributes : list string) (d : dict) :
  requests (trace (Cli.set_parse_attributes strtod attributes d)) = []
  /\ audit_records (trace (Cli.set_parse_attributes strtod attributes d)) = [].
Proof.
  revert d. induction attributes as [|t rest IH]; intros d; simpl.
  - split; reflexivity.
  - destruct (contains_char "=" t); simpl; [apply IH | split; reflexivity].
Qed.

(** The policy engine issues no request and calls [log_action] never. *)
Lemma check_action_quiet (entity_id action : string)
    (config : option SafetyConfig) (force : bool) :
  requests (trace (Safety.check_action fnmatch entity_id action config force)) = []
  /\ audit_records
       (trace (Safety.check_action fnmatch entity_id action config force)) = [].
Proof.
  unfold Safety.check_action.
  set (c := match config with Some c => c | None => SafetyConfig_default end).
  destruct (level c =? 0)%Z; [split; reflexivity|].
  destruct (Safety.is_blocked fnmatch entity_id (blocked_entities c));
    [split; reflexivity|].
  destruct (nonempty (allowed_entities c)
            && negb (Safety.is_allowed fnmatch entity_id (allowed_entities c)));
    [split; reflexivity|].
  destruct ((level c >=? 3)%Z
            && str_in (nth 0 (split1 "." entity_id) EmptyString)
                 (critical_domains c)),
           ((level c >=? 2)%Z && str_in action Safety.write_actions),
           force; split; reflexivity.
Qed.

End CommandFacts.

Lemma bind_ret_l {A B : Type} (a : A) (k : A -> M B) : bind (ret a) k = k a.
Proof. unfold bind, ret. destruct (k a). reflexivity. Qed.

Section CommandClaims.

Variable fnmatch : string -> string -> bool.
Variable strtod : string -> float.
Variable hub : Client.hub_t.
Variable loaded : Config.

(** C3 (amended).  For [on], [off], [toggle] and [set] (once the tokens of
    [set] are well formed, so that the policy engine is asked):
    - a denial ([PermissionError]) is recorded by [log_action] with
      [allowed = False], with the entity, the action and the force flag,
      before the command exits with code 1, and no service is called;
    - a confirmation-required outcome ([CriticalActionError]) is reported
      and the command exits with code 1, but [log_action] is not called: the
      only log record is the one the policy engine wrote itself;
    - an allowed action is recorded with [allowed = True] once its service
      call has succeeded; when the call fails with an [ApiError] nothing is
      recorded and the command exits with code 1. *)
Theorem C3_audit_of_entity_commands
    (c : entity_cmd) (entity_id : string) (force : bool) :
  well_formed c = true ->
  match outcome (Safety.check_action fnmatch entity_id (action_of c)
                   (Some (safety loaded)) force) with
  | Raise (PermissionError _) =>
      audit_records (trace (run fnmatch strtod hub loaded c entity_id force))
      = trace (Logger.log_action entity_id (action_of c) force false)
      /\ outcome (run fnmatch strtod hub loaded c entity_id force) = Raise (Exit 1)
      /\ requests (trace (run fnmatch strtod hub loaded c entity_id force)) = []
  | Raise (CriticalActionError _ _) =>
      audit_records (trace (run fnmatch strtod hub loaded c entity_id force)) = []
      /\ outcome (run fnmatch strtod hub loaded c entity_id force) = Raise (Exit 1)
      /\ requests (trace (run fnmatch strtod hub loaded c entity_id force)) = []
  | Return _ =>
      match hub "POST" (fst (service_call strtod c entity_id))
              (Some (snd (service_call strtod c entity_id))) with
      | inl _ =>
          audit_records (trace (run fnmatch strtod hub loaded c entity_id force))
          = trace (Logger.log_action entity_id (action_of c) force true)
          /\ outcome (run fnmatch strtod hub loaded c entity_id force) = Return tt
      | inr _ =>
          audit_records (trace (run fnmatch strtod hub loaded c entity_id force)) = []
          /\ outcome (run fnmatch strtod hub loaded c entity_id force)
             = Raise (Exit 1)
      end
  | Raise _ => True
  end.
Proof.
  intros Hwf.
  pose proof (check_action_quiet fnmatch entity_id (action_of c)
                (Some (safety loaded)) force) as [Hr Hq].
  unfold audit_records, requests in *.
  destruct c; cbn [action_of well_formed] in *;
    unfold run, service_call, Cli.on, Cli.off, Cli.toggle, Cli.set,
      Cli.entity_command, Cli.get_config;
    rewrite bind_ret_l;
    try (unfold set_payload; rewrite (set_parse_attributes_ok strtod _ _ Hwf);
         rewrite bind_ret_l);
    match goal with
    | |- context [Safety.check_action ?f ?e ?a ?cfg ?b] =>
        destruct (Safety.check_action f e a cfg b) as [tr r]
    end;
    cbn [trace outcome fst snd] in *;
    (destruct r as [[]|[]]; [| | | exact I ..]);
    unfold Client.call_service_for_entity, Client.call_service,
      Client._make_request, Safety.get_domain;
    cbn [truthy];
    rewrite ?(fold_payload_nonempty strtod _ [("entity_id", PStr entity_id)]
                eq_refl);
    cbn;
    try match goal with
        | |- context [hub ?m ?ep ?j] => destruct (hub m ep j) as [body|[msg code]]
        end;
    destruct force; cbn; rewrite ?filter_app, ?Hq, ?Hr; repeat split; reflexivity.
Qed.

(** C10.  When every attribute token holds an [=] and the safety check on
    [(entity_id, set)] passes, [set] issues exactly one request: a POST to
    [/api/services/<domain>/turn_on], the domain being that of the entity.
    Its payload has the key [entity_id]; each key holds the typed value of
    the last token that names it, and [entity_id] holds the entity id unless
    a token names that key. *)
Theorem C10_set_calls_turn_on
    (entity_id : string) (attributes : list string) (force : bool) :
  forallb (contains_char "=") attributes = true ->
  outcome (Safety.check_action fnmatch entity_id "set"
             (Some (safety loaded)) force) = Return tt ->
  requests (trace (Cli.set fnmatch strtod hub loaded entity_id attributes force))
  = [Request "POST"
       ("/api/services/" ++ Safety.get_domain entity_id ++ "/turn_on")
       (Some (PDict (set_payload strtod entity_id attributes)))]
  /\ dict_has "entity_id" (set_payload strtod entity_id attributes) = true
  /\ forall key,
       dict_get key (set_payload strtod entity_id attributes)
       = match find (fun token => String.eqb key (token_key token))
                 (rev attributes) with
         | Some token => Some (Cli.set_parse_value strtod (token_value token))
         | None => if String.eqb key "entity_id" then Some (PStr entity_id)
                   else None
         end.
Proof.
  intros Hwf Hpass.
  assert (Hlookup : forall key,
             dict_get key (set_payload strtod entity_id attributes)
             = match find (fun token => String.eqb key (token_key token))
                       (rev attributes) with
               | Some token =>
                   Some (Cli.set_parse_value strtod (token_value token))
               | None => if String.eqb key "entity_id" then Some (PStr entity_id)
                         else None
               end).
  { intros key. unfold set_payload. rewrite fold_payload_lookup. reflexivity. }
  split; [|split; [|exact Hlookup]].
  - pose proof (check_action_quiet fnmatch entity_id "set"
                  (Some (safety loaded)) force) as [Hr _].
    unfold requests in *.
    unfold Cli.set, Cli.get_config. rewrite bind_ret_l.
    unfold set_payload. rewrite (set_parse_attributes_ok strtod _ _ Hwf).
    rewrite bind_ret_l.
    destruct (Safety.check_action fnmatch entity_id "set"
                (Some (safety loaded)) force) as [tr r].
    cbn [trace outcome fst snd] in *. subst r.
    unfold Client.call_service, Client._make_request, Safety.get_domain.
    cbn [truthy].
    rewrite (fold_payload_nonempty strtod _ [("entity_id", PStr entity_id)]
               eq_refl).
    cbn.
    match goal with
    | |- context [hub ?m ?ep ?j] => destruct (hub m ep j) as [body|[msg code]]
    end;
    destruct force; cbn; rewrite ?filter_app, ?Hr; reflexivity.
  - unfold dict_has. rewrite Hlookup.
    destruct (find _ (rev attributes)); reflexivity.
Qed.

(** X11.  Whatever its arguments, [set] sends nothing but POSTs to the [turn_on]
    service of the entity's domain. *)
Lemma set_never_calls_a_set_service
    (entity_id : string) (attributes : list string) (force : bool) :
  forall ev,
    In ev (requests
             (trace (Cli.set fnmatch strtod hub loaded entity_id attributes force))) ->
    exists payload,
      ev = Request "POST"
             ("/api/services/" ++ Safety.get_domain entity_id ++ "/turn_on")
             (Some payload).
Proof.
  intros ev.
  pose proof (check_action_quiet fnmatch entity_id "set"
                (Some (safety loaded)) force) as [Hr _].
  pose proof (set_parse_attributes_prints strtod attributes
                [("entity_id", PStr entity_id)]) as [Hp _].
  unfold requests in *.
  unfold Cli.set, Cli.get_config. rewrite bind_ret_l.
  destruct (Cli.set_parse_attributes strtod attributes
              [("entity_id", PStr entity_id)]) as [tp [data|e]].
  - cbn [trace fst bind] in *.
    destruct (Safety.check_action fnmatch entity_id "set"
                (Some (safety loaded)) force) as [tr r].
    cbn [trace outcome fst snd] in *.
    unfold Client.call_service, Client._make_request, Safety.get_domain.
    destruct r as [[]|e]; cbn.
    + match goal with
      | |- context [hub ?m ?ep ?j] => destruct (hub m ep j) as [body|[msg code]]
      end;
      destruct force; cbn; rewrite ?filter_app, ?Hp, ?Hr; cbn;
        (intros [<-|[]]; eexists; reflexivity).
    + destruct e, force; cbn; rewrite ?filter_app, ?Hp, ?Hr; cbn;
        intros [].
  - cbn [trace fst bind] in *.
    destruct e; cbn; rewrite ?filter_app, ?Hp; cbn; try (intros []).
    all: destruct force; cbn; rewrite ?filter_app, ?Hp; cbn; intros [].
Qed.

End CommandClaims.

(* ------------------------------------------------------------------ *)
(** ** The commands on concrete requests *)
(* ------------------------------------------------------------------ *)

(** Configurations of the examples. *)
Definition config_outdoor_blocked : Config := {| safety := level3_outdoor_blocked |}.
Definition config_lock : Config := {| safety := level3_lock |}.
Definition config_open : Config := {| safety := level1_open |}.

(** X14.  With [force], [call] never asks the policy engine: the loaded policy has
    no bearing on what the command does. *)
Lemma call_with_force_ignores_policy
    (fnmatch : string -> string -> bool) (strtod : string -> float)
    (json_loads : string -> pyval + string) (py_str : pyval -> string)
    (hub : Client.hub_t) (loaded loaded' : Config)
    (service : string) (params : list string) (json_data : option string) :
  Cli.call fnmatch strtod json_loads py_str hub loaded service params json_data true
  = Cli.call fnmatch strtod json_loads py_str hub loaded' service params
      json_data true.
Proof.
  unfold Cli.call, Cli.get_config. rewrite !bind_ret_l.
  destruct (contains_char "." service); cbn [negb]; [|reflexivity].
  f_equal.
  match goal with
  | |- bind ?m _ = bind ?m _ => destruct m as [t [data|e]]
  end; [|reflexivity].
  cbn [bind].
  destruct (Cli.has_entity_id data) as [t' [present|e]]; [|reflexivity].
  cbn [bind]. rewrite andb_false_r. reflexivity.
Qed.

(** C2: the code departs from the claim.  Under a level-3 policy that
    blocks [switch.outdoor_*], [call switch.turn_on
    entity_id=switch.outdoor_pump --force] has a payload with the key
    [entity_id], yet the policy engine is not asked (no record of it in the
    trace) and the service is called; the same entity with the same flag is
    denied by [on]. *)
Theorem C2_call_force_skips_blocklist :
  dict_has "entity_id" [("entity_id", PStr "switch.outdoor_pump")] = true
  /\ Cli.call Fnmatch.glob_match no_strtod no_json no_str hub_ok
       config_outdoor_blocked
       "switch.turn_on" ["entity_id=switch.outdoor_pump"] None true
     = ([Request "POST" "/api/services/switch/turn_on"
           (Some (PDict [("entity_id", PStr "switch.outdoor_pump")]));
         Print "[green]✓[/green] Service switch.turn_on called successfully"],
        Return tt)
  /\ Cli.on Fnmatch.glob_match hub_ok config_outdoor_blocked
       "switch.outdoor_pump" true
     = ([Log "ha_ctl.safety" ERROR
           "BLOCKED: turn_on on switch.outdoor_pump (entity in blocked list)";
         Print (Safety.blocked_message "switch.outdoor_pump");
         Log "ha_ctl.logger" ERROR
           "DENIED: turn_on on switch.outdoor_pump [FORCED]"],
        Raise (Exit 1))
  /\ Cli.call Fnmatch.glob_match no_strtod no_json no_str hub_ok
       config_outdoor_blocked
       "switch.turn_on" ["entity_id=switch.outdoor_pump"] None false
     = ([Log "ha_ctl.safety" ERROR
           "BLOCKED: turn_on on switch.outdoor_pump (entity in blocked list)";
         Print (Safety.blocked_message "switch.outdoor_pump")],
        Raise (Exit 1)).
Proof. repeat split; vm_compute; reflexivity. Qed.

(** C3 as stated fails twice.  [on lock.front_door] under a level-3 policy
    with [lock] critical requires confirmation: the command prints the
    message and exits with code 1 without any call of [log_action].  And
    [call] on a blocked entity is denied, again without any call of
    [log_action]. *)
Lemma C3_unrecorded_counterexample :
  Cli.on Fnmatch.glob_match hub_ok config_lock "lock.front_door" false
  = ([Log "ha_ctl.safety" WARNING
        "CRITICAL: turn_on on lock.front_door requires confirmation";
      Print (CriticalActionError_message "lock.front_door" "turn_on")],
     Raise (Exit 1))
  /\ audit_records
       (trace (Cli.on Fnmatch.glob_match hub_ok config_lock
                 "lock.front_door" false)) = []
  /\ Cli.call Fnmatch.glob_match no_strtod no_json no_str hub_ok
       config_outdoor_blocked
       "switch.turn_on" ["entity_id=switch.outdoor_pump"] None false
     = ([Log "ha_ctl.safety" ERROR
           "BLOCKED: turn_on on switch.outdoor_pump (entity in blocked list)";
         Print (Safety.blocked_message "switch.outdoor_pump")],
        Raise (Exit 1))
  /\ audit_records
       (trace (Cli.call Fnmatch.glob_match no_strtod no_json no_str hub_ok
                 config_outdoor_blocked
                 "switch.turn_on" ["entity_id=switch.outdoor_pump"] None false))
     = [].
Proof. repeat split; vm_compute; reflexivity. Qed.

(** C3 (amended), on a denial with [force] and on an allowed [set]. *)
Lemma C3_audit_witness :
  well_formed CmdOn = true
  /\ (audit_records
        (trace (run Fnmatch.glob_match no_strtod hub_ok config_outdoor_blocked
                  CmdOn "switch.outdoor_pump" true))
      = [Log "ha_ctl.logger" ERROR
           "DENIED: turn_on on switch.outdoor_pump [FORCED]"]
      /\ outcome (run Fnmatch.glob_match no_strtod hub_ok config_outdoor_blocked
                    CmdOn "switch.outdoor_pump" true) = Raise (Exit 1)
      /\ requests
           (trace (run Fnmatch.glob_match no_strtod hub_ok config_outdoor_blocked
                     CmdOn "switch.outdoor_pump" true)) = [])
  /\ well_formed (CmdSet ["brightness=128"]) = true
  /\ (audit_records
        (trace (run Fnmatch.glob_match no_strtod hub_ok config_open
                  (CmdSet ["brightness=128"]) "light.kitchen" false))
      = [Log "ha_ctl.logger" INFO "ALLOWED: set on light.kitchen"]
      /\ outcome (run Fnmatch.glob_match no_strtod hub_ok config_open
                    (CmdSet ["brightness=128"]) "light.kitchen" false)
         = Return tt).
Proof.
  split; [reflexivity|]. split.
  - exact (C3_audit_of_entity_commands Fnmatch.glob_match no_strtod hub_ok
             config_outdoor_blocked CmdOn "switch.outdoor_pump" true eq_refl).
  - split; [reflexivity|].
    exact (C3_audit_of_entity_commands Fnmatch.glob_match no_strtod hub_ok
             config_open (CmdSet ["brightness=128"]) "light.kitchen" false
             eq_refl).
Defined.

(** C10, on [set light.kitchen brightness=128 on=true name=kitchen] under an
    open level-1 policy. *)
Lemma C10_set_witness :
  forallb (contains_char "=") ["brightness=128"; "on=true"; "name=kitchen"] = true
  /\ outcome (Safety.check_action Fnmatch.glob_match "light.kitchen" "set"
                (Some (safety config_open)) false) = Return tt
  /\ requests
       (trace (Cli.set Fnmatch.glob_match no_strtod hub_ok config_open
                 "light.kitchen" ["brightness=128"; "on=true"; "name=kitchen"]
                 false))
     = [Request "POST" "/api/services/light/turn_on"
          (Some (PDict [("entity_id", PStr "light.kitchen");
                        ("brightness", PInt 128);
                        ("on", PBool true);
                        ("name", PStr "kitchen")]))].
Proof.
  split; [reflexivity|]. split; [reflexivity|].
  exact (proj1 (C10_set_calls_turn_on Fnmatch.glob_match no_strtod hub_ok
                  config_open "light.kitchen"
                  ["brightness=128"; "on=true"; "name=kitchen"] false
                  eq_refl eq_refl)).
Defined.

(** X12.  The typing of [set] and of [call] agree on every value that is not
    [on] or [off] (in any case). *)
Lemma parse_values_agree (strtod : string -> float) (value : string) :
  str_in (lower value) ["on"; "off"] = false ->
  Cli.set_parse_value strtod value = Cli.call_parse_value strtod value.
Proof.
  unfold Cli.set_parse_value, Cli.call_parse_value, str_in. cbn [existsb].
  intros H. rewrite !orb_false_r in *. apply orb_false_iff in H.
  destruct H as [Hon Hoff]. rewrite Hon, Hoff, !orb_false_r. reflexivity.
Qed.

(** C9: the code departs from the claim.  The three examples are typed alike
    by [set] and by [call] (integer 128, boolean true, string [kitchen]),
    but the literals [on] and [off] are booleans for [set] only: [call]
    leaves them as strings.  So [state=on] gives [True] under [set] and the
    string [on] under [call]. *)
Theorem C9_on_off_typed_differently (strtod : string -> float) :
  (Cli.set_parse_value strtod "128" = PInt 128
   /\ Cli.call_parse_value strtod "128" = PInt 128
   /\ Cli.set_parse_value strtod "true" = PBool true
   /\ Cli.call_parse_value strtod "true" = PBool true
   /\ Cli.set_parse_value strtod "kitchen" = PStr "kitchen"
   /\ Cli.call_parse_value strtod "kitchen" = PStr "kitchen")
  /\ (Cli.set_parse_value strtod "on" = PBool true
      /\ Cli.call_parse_value strtod "on" = PStr "on"
      /\ Cli.set_parse_value strtod "off" = PBool false
      /\ Cli.call_parse_value strtod "off" = PStr "off"
      /\ Cli.set_parse_value strtod "ON" = PBool true
      /\ Cli.call_parse_value strtod "ON" = PStr "ON")
  /\ Cli.set_parse_attributes strtod ["state=on"] [] = ret [("state", PBool true)]
  /\ Cli.call_parse_params strtod ["state=on"] [] = ret [("state", PStr "on")].
Proof. repeat split; reflexivity. Qed.

(* ================================================================== *)
(** * Further properties of the policy engine *)
(* ================================================================== *)

Lemma split1_shape (sep : ascii) (s : string) :
  (contains_char sep s = false /\ split1 sep s = [s])
  \/ (exists a b,
        split1 sep s = [a; b] /\ s = a ++ String sep b
        /\ contains_char sep a = false).
Proof.
  induction s as [|c s IH]; simpl.
  - left. split; reflexivity.
  - destruct (Ascii.eqb_spec c sep) as [->|Hne].
    + right. exists EmptyString, s. repeat split; reflexivity.
    + assert (Hsc : Ascii.eqb sep c = false)
        by (apply Ascii.eqb_neq; congruence).
      rewrite Hsc. simpl.
      destruct IH as [[Hno Hs] | [a [b [Hs [Heq Ha]]]]].
      * left. rewrite Hs. split; [exact Hno | reflexivity].
      * right. exists (String c a), b. rewrite Hs. simpl.
        rewrite Hsc, Ha, Heq. repeat split; reflexivity.
Qed.

Section PolicyExtras.

Variable fnmatch : string -> string -> bool.

(** X1.  [force] turns a request for confirmation into an allowance and changes
    no other answer of the policy engine: what is allowed stays allowed, what
    is denied stays denied with the same message. *)
Theorem force_lifts_confirmation_only
    (entity_id action : string) (config : option SafetyConfig) :
  outcome (Safety.check_action fnmatch entity_id action config true)
  = match outcome (Safety.check_action fnmatch entity_id action config false) with
    | Raise (CriticalActionError _ _) => Return tt
    | r => r
    end.
Proof.
  unfold Safety.check_action.
  set (c := match config with Some c => c | None => SafetyConfig_default end).
  destruct (level c =? 0)%Z; [reflexivity|].
  destruct (Safety.is_blocked fnmatch entity_id (blocked_entities c));
    [reflexivity|].
  destruct (nonempty (allowed_entities c)
            && negb (Safety.is_allowed fnmatch entity_id (allowed_entities c)));
    [reflexivity|].
  destruct ((level c >=? 3)%Z
            && str_in (nth 0 (split1 "." entity_id) EmptyString)
                 (critical_domains c)),
           ((level c >=? 2)%Z && str_in action Safety.write_actions);
    reflexivity.
Qed.

(** X2.  The engine asks for confirmation exactly when the policy is switched on,
    the entity passes the blocklist and the allowlist, [force] is not given,
    and either the level is 3 or more and the domain is critical, or the
    level is 2 or more and the action is one of the four write actions. *)
Theorem confirmation_required_iff
    (entity_id action : string) (config : SafetyConfig) (force : bool) :
  outcome (Safety.check_action fnmatch entity_id action (Some config) force)
  = Raise (CriticalActionError entity_id action)
  <->
  level config <> 0%Z
  /\ ~ matches_any fnmatch entity_id (blocked_entities config)
  /\ (allowed_entities config = []
      \/ matches_any fnmatch entity_id (allowed_entities config))
  /\ force = false
  /\ ((3 <= level config)%Z
      /\ In (Safety.get_domain entity_id) (critical_domains config)
      \/ (2 <= level config)%Z
         /\ In action ["turn_on"; "turn_off"; "toggle"; "set"]).
Proof.
  rewrite <- (is_blocked_matches fnmatch), <- (allowlist_gate fnmatch).
  rewrite <- !(str_in_In), <- !Z.geb_le, !Z.geb_leb.
  unfold Safety.check_action, Safety.get_domain.
  change ["turn_on"; "turn_off"; "toggle"; "set"] with Safety.write_actions.
  rewrite <- !Z.geb_leb.
  destruct (Z.eqb_spec (level config) 0) as [H0|H0].
  - cbn. split; [discriminate | intros [H _]; contradiction].
  - destruct (Safety.is_blocked fnmatch entity_id (blocked_entities config)).
    + cbn. split; [discriminate | intros [_ [H _]]; now elim H].
    + destruct (nonempty (allowed_entities config)
                && negb (Safety.is_allowed fnmatch entity_id
                           (allowed_entities config))).
      * cbn. split; [discriminate | intros [_ [_ [H _]]]; discriminate].
      * destruct (level config >=? 3)%Z,
                 (str_in (nth 0 (split1 "." entity_id) EmptyString)
                    (critical_domains config)),
                 (level config >=? 2)%Z,
                 (str_in action Safety.write_actions),
                 force; cbn;
          (split;
           [ first [ discriminate
                   | intros _; repeat split; auto; discriminate ]
           | first [ reflexivity
                   | intros [_ [_ [_ [Hf Hd]]]];
                     first [ discriminate Hf
                           | destruct Hd as [[? ?]|[? ?]]; discriminate ] ] ]).
Qed.

(** X3.  The engine denies exactly when the policy is switched on and the entity
    matches a blocked pattern, or matches none of a non-empty allowlist;
    neither the action nor [force] plays a part. *)
Theorem denied_iff
    (entity_id action : string) (config : SafetyConfig) (force : bool) :
  (exists msg,
     outcome (Safety.check_action fnmatch entity_id action (Some config) force)
     = Raise (PermissionError msg))
  <->
  level config <> 0%Z
  /\ (matches_any fnmatch entity_id (blocked_entities config)
      \/ allowed_entities config <> []
         /\ ~ matches_any fnmatch entity_id (allowed_entities config)).
Proof.
  unfold Safety.check_action.
  destruct (Z.eqb_spec (level config) 0) as [H0|H0].
  - cbn. split; [intros [m H]; discriminate | intros [H _]; contradiction].
  - destruct (Safety.is_blocked fnmatch entity_id (blocked_entities config))
      eqn:Hb.
    + cbn. split; [|intros _; eexists; reflexivity].
      intros _. split; [exact H0|]. left. now apply is_blocked_matches.
    + assert (Hnb : ~ matches_any fnmatch entity_id (blocked_entities config)).
      { intros H. apply is_blocked_matches in H. congruence. }
      destruct (nonempty (allowed_entities config)
                && negb (Safety.is_allowed fnmatch entity_id
                           (allowed_entities config))) eqn:Ha.
      * cbn. split; [|intros _; eexists; reflexivity].
        intros _. split; [exact H0|]. right.
        split.
        -- intros Hnil. rewrite Hnil in Ha. discriminate.
        -- intros Hm.
           assert (Hg : nonempty (allowed_entities config)
                        && negb (Safety.is_allowed fnmatch entity_id
                                   (allowed_entities config)) = false)
             by (apply allowlist_gate; right; exact Hm).
           congruence.
      * apply allowlist_gate in Ha.
        split.
        -- intros [m Hm]. exfalso.
           destruct ((level config >=? 3)%Z
                     && str_in (nth 0 (split1 "." entity_id) EmptyString)
                          (critical_domains config)),
                    ((level config >=? 2)%Z
                     && str_in action Safety.write_actions),
                    force; cbn in Hm; discriminate.
        -- intros [_ [Hm | [Hne Hno]]]; [contradiction|].
           destruct Ha; contradiction.
Qed.

(** X4.  The two list tests are what their docstrings say: an entity is blocked
    exactly when some pattern of the list matches it, and allowed exactly
    when the list is empty or some pattern matches it. *)
Theorem list_tests_characterised (entity_id : string) (patterns : list string) :
  (Safety.is_blocked fnmatch entity_id patterns = true
   <-> matches_any fnmatch entity_id patterns)
  /\ (Safety.is_allowed fnmatch entity_id patterns = true
      <-> patterns = [] \/ matches_any fnmatch entity_id patterns).
Proof.
  split; [apply is_blocked_matches|].
  unfold Safety.is_allowed. destruct patterns as [|p l].
  - simpl. split; auto.
  - change (nonempty (p :: l)) with true. cbn [negb].
    rewrite is_allowed_loop_matches.
    split; [auto | intros [H|H]; [discriminate | exact H]].
Qed.

End PolicyExtras.

(** X5.  An entity id with a [.] is its domain, the dot and the rest; the domain
    itself holds no dot (the split is at the first one). *)
Theorem domain_splits_entity_id (entity_id : string) :
  contains_char "." entity_id = true ->
  contains_char "." (Safety.get_domain entity_id) = false
  /\ exists object_id,
       entity_id = Safety.get_domain entity_id ++ "." ++ object_id.
Proof.
  intros H. unfold Safety.get_domain.
  destruct (split1_shape "." entity_id) as [[Hno _] | [a [b [Hs [Heq Ha]]]]].
  - congruence.
  - rewrite Hs. cbn [nth]. split; [exact Ha|]. exists b. exact Heq.
Qed.

Lemma domain_splits_witness :
  contains_char "." "sensor.living.room_temp" = true
  /\ Safety.get_domain "sensor.living.room_temp" = "sensor"
  /\ contains_char "." (Safety.get_domain "sensor.living.room_temp") = false.
Proof.
  split; [reflexivity|]. split; [reflexivity|].
  exact (proj1 (domain_splits_entity_id "sensor.living.room_temp" eq_refl)).
Defined.

(* ================================================================== *)
(** * Further properties of the commands *)
(* ================================================================== *)

(** The first token of [set] that holds no [=], if any. *)
Definition malformed (c : entity_cmd) : option string :=
  match c with
  | CmdSet attributes =>
      find (fun token => negb (contains_char "=" token)) attributes
  | _ => None
  end.

(** What a command prints when it is done. *)
Definition success_text (c : entity_cmd) (entity_id : string) : string :=
  "[green]✓[/green] " ++ entity_id ++
  match c with
  | CmdOn => " turned on"
  | CmdOff => " turned off"
  | CmdToggle => " toggled"
  | CmdSet _ => " updated"
  end.

Lemma split1_join (sep : ascii) (a b : string) :
  contains_char sep a = false ->
  split1 sep (a ++ String sep b) = [a; b].
Proof.
  induction a as [|c a IH]; simpl; intros H.
  - rewrite Ascii.eqb_refl. reflexivity.
  - apply orb_false_iff in H. destruct H as [Hc Ha].
    rewrite Ascii.eqb_sym, Hc, (IH Ha). reflexivity.
Qed.

Lemma malformed_none (attributes : list string) :
  find (fun token => negb (contains_char "=" token)) attributes = None
  <-> forallb (contains_char "=") attributes = true.
Proof.
  induction attributes as [|t rest IH]; simpl; [tauto|].
  destruct (contains_char "=" t); simpl; [exact IH|].
  split; discriminate.
Qed.

Section CommandExtras.

Variable fnmatch : string -> string -> bool.
Variable strtod : string -> float.
Variable hub : Client.hub_t.
Variable loaded : Config.

(** A malformed token stops the loop of [set] with two lines on the
    console, whatever came before it. *)
Lemma set_parse_attributes_bad (attributes : list string) (d : dict)
    (token : string) :
  find (fun token => negb (contains_char "=" token)) attributes = Some token ->
  Cli.set_parse_attributes strtod attributes d
  = ([Print ("[red]Error:[/red] Invalid attribute format: " ++ token);
      Print "[yellow]Expected format:[/yellow] key=value"],
     Raise (Exit 1)).
Proof.
  revert d. induction attributes as [|t rest IH]; intros d; simpl.
  - discriminate.
  - destruct (contains_char "=" t); simpl.
    + intros H. apply IH, H.
    + intros H. injection H as ->. reflexivity.
Qed.

(** The whole behaviour of [on], [off], [toggle] and [set], case by case. *)
Lemma run_cases (c : entity_cmd) (entity_id : string) (force : bool) :
  run fnmatch strtod hub loaded c entity_id force
  = match malformed c with
    | Some token =>
        ([Print ("[red]Error:[/red] Invalid attribute format: " ++ token);
          Print "[yellow]Expected format:[/yellow] key=value"],
         Raise (Exit 1))
    | None =>
        let checked :=
          Safety.check_action fnmatch entity_id (action_of c)
            (Some (safety loaded)) force in
        let endpoint := fst (service_call strtod c entity_id) in
        let payload := snd (service_call strtod c entity_id) in
        match outcome checked with
        | Return _ =>
            match hub "POST" endpoint (Some payload) with
            | inl _ =>
                ((trace checked
                  ++ Request "POST" endpoint (Some payload)
                     :: trace (Logger.log_action entity_id (action_of c) force true)
                  ++ [Print (success_text c entity_id)])%list,
                 Return tt)
            | inr (message, status_code) =>
                ((trace checked
                  ++ [Request "POST" endpoint (Some payload);
                      Print ("[red]Error:[/red] "
                             ++ ApiError_str message status_code)])%list,
                 Raise (Exit 1))
            end
        | Raise (PermissionError msg) =>
            ((trace checked
              ++ Print msg
                 :: trace (Logger.log_action entity_id (action_of c) force false))%list,
             Raise (Exit 1))
        | Raise (CriticalActionError e a) =>
            ((trace checked ++ [Print (CriticalActionError_message e a)])%list,
             Raise (Exit 1))
        | Raise _ => run fnmatch strtod hub loaded c entity_id force
        end
    end.
Proof.
  destruct (malformed c) as [token|] eqn:Hm.
  - destruct c; try discriminate. cbn [malformed] in Hm.
    unfold run, Cli.set, Cli.get_config. rewrite bind_ret_l.
    rewrite (set_parse_attributes_bad _ _ _ Hm). reflexivity.
  - assert (Hwf : well_formed c = true).
    { destruct c; try reflexivity. now apply malformed_none. }
    cbv zeta.
    destruct c; cbn [action_of well_formed] in *;
      unfold run, service_call, Cli.on, Cli.off, Cli.toggle, Cli.set,
        Cli.entity_command, Cli.get_config;
      rewrite bind_ret_l;
      try (unfold set_payload; rewrite (set_parse_attributes_ok strtod _ _ Hwf);
           rewrite bind_ret_l);
      match goal with
      | |- context [Safety.check_action ?f ?e ?a ?cfg ?b] =>
          destruct (Safety.check_action f e a cfg b) as [tr r]
      end;
      cbn [trace outcome fst snd] in *;
      (destruct r as [[]|[]]; [| | | reflexivity ..]);
      unfold Client.call_service_for_entity, Client.call_service,
        Client._make_request, Safety.get_domain;
      cbn [truthy];
      rewrite ?(fold_payload_nonempty strtod _ [("entity_id", PStr entity_id)]
                  eq_refl);
      cbn;
      try match goal with
          | |- context [hub ?m ?ep ?j] => destruct (hub m ep j) as [body|[msg code]]
          end;
      destruct force; cbn; rewrite <- ?app_assoc; reflexivity.
Qed.

(** X6.  [on], [off], [toggle] and [set] call at most one service, and only
    after the policy engine has allowed the action on the entity: a trace
    with a request is the trace of an allowed action. *)
Theorem service_called_only_when_allowed
    (c : entity_cmd) (entity_id : string) (force : bool) :
  (length (requests (trace (run fnmatch strtod hub loaded c entity_id force)))
   <= 1)%nat
  /\ (requests (trace (run fnmatch strtod hub loaded c entity_id force)) <> [] ->
      outcome (Safety.check_action fnmatch entity_id (action_of c)
                 (Some (safety loaded)) force) = Return tt).
Proof.
  pose proof (check_action_quiet fnmatch entity_id (action_of c)
                (Some (safety loaded)) force) as [Hr _].
  pose proof (check_action_answers fnmatch entity_id (action_of c)
                (Some (safety loaded)) force) as Hans.
  rewrite run_cases. cbv zeta.
  destruct (malformed c); [cbn; split; [lia | intros H; now elim H]|].
  destruct (Safety.check_action fnmatch entity_id (action_of c)
              (Some (safety loaded)) force) as [tr r].
  unfold requests in *. cbn [trace outcome fst snd] in *.
  destruct r as [[]|[]]; try discriminate Hans.
  - destruct (hub "POST" _ _) as [body|[msg code]];
      cbn [trace fst]; rewrite filter_app, Hr;
      destruct force; cbn; (split; [lia | reflexivity]).
  - cbn [trace fst]. rewrite filter_app, Hr. cbn.
    split; [lia | intros H; now elim H].
  - cbn [trace fst]. rewrite filter_app, Hr. destruct force; cbn;
      (split; [lia | intros H; now elim H]).
Qed.


(** X8.  A token of [set] without [=] is an input error that comes before
    everything else: whatever the entity, the policy and the tokens before
    it, the command prints two lines naming that token and exits with code
    1; the policy engine is not asked, nothing is logged, no service is
    called. *)
Theorem set_malformed_token_preempts
    (entity_id : string) (attributes : list string) (force : bool)
    (token : string) :
  find (fun token => negb (contains_char "=" token)) attributes = Some token ->
  Cli.set fnmatch strtod hub loaded entity_id attributes force
  = ([Print ("[red]Error:[/red] Invalid attribute format: " ++ token);
      Print "[yellow]Expected format:[/yellow] key=value"],
     Raise (Exit 1)).
Proof.
  intros H.
  change (Cli.set fnmatch strtod hub loaded entity_id attributes force)
    with (run fnmatch strtod hub loaded (CmdSet attributes) entity_id force).
  rewrite run_cases. cbn [malformed]. rewrite H. reflexivity.
Qed.

(** X9.  A token is split at its first [=]: a key without [=] and any value,
    joined by [=], come back as that key and the typed value, so the value
    may itself hold [=] signs. *)
Theorem token_round_trip (key value : string) (d : dict) :
  contains_char "=" key = false ->
  Cli.set_parse_attributes strtod [key ++ "=" ++ value] d
  = ret (dict_set key (Cli.set_parse_value strtod value) d)
  /\ Cli.call_parse_params strtod [key ++ "=" ++ value] d
     = ret (dict_set key (Cli.call_parse_value strtod value) d).
Proof.
  intros Hk.
  change (key ++ "=" ++ value) with (key ++ String "=" value).
  assert (Hc : contains_char "=" (key ++ String "=" value) = true).
  { clear Hk. induction key as [|c k IH]; simpl.
    - reflexivity.
    - rewrite IH. apply orb_true_r. }
  cbn [Cli.set_parse_attributes Cli.call_parse_params].
  rewrite Hc. cbn [negb].
  rewrite (split1_join _ _ _ Hk). split; reflexivity.
Qed.

(** X10.  A token [entity_id=v] replaces the target in the payload of [set]: the
    policy engine has checked the entity given on the command line, the
    service is called in that entity's domain, but the payload names [v]. *)
Theorem set_entity_id_token_retargets
    (entity_id value : string) (attributes : list string) (force : bool) :
  forallb (contains_char "=") attributes = true ->
  outcome (Safety.check_action fnmatch entity_id "set"
             (Some (safety loaded)) force) = Return tt ->
  exists payload,
    requests
      (trace (Cli.set fnmatch strtod hub loaded entity_id
                (attributes ++ ["entity_id=" ++ value]) force))
    = [Request "POST"
         ("/api/services/" ++ Safety.get_domain entity_id ++ "/turn_on")
         (Some (PDict payload))]
    /\ dict_get "entity_id" payload = Some (Cli.set_parse_value strtod value).
Proof.
  intros Hwf Hpass.
  pose proof (check_action_quiet fnmatch entity_id "set"
                (Some (safety loaded)) force) as [Hr _].
  exists (set_payload strtod entity_id (attributes ++ ["entity_id=" ++ value])).
  split.
  - change (Cli.set fnmatch strtod hub loaded entity_id
              (attributes ++ ["entity_id=" ++ value]) force)
      with (run fnmatch strtod hub loaded
              (CmdSet (attributes ++ ["entity_id=" ++ value])) entity_id force).
    rewrite run_cases. cbv zeta. cbn [malformed action_of service_call fst snd].
    assert (Hnone : find (fun token => negb (contains_char "=" token))
                      (attributes ++ ["entity_id=" ++ value]) = None).
    { apply malformed_none. rewrite forallb_app, Hwf. reflexivity. }
    rewrite Hnone, Hpass.
    unfold requests in *.
    destruct (hub "POST" _ _) as [body|[msg code]];
      cbn [trace fst]; rewrite filter_app, Hr; destruct force; reflexivity.
  - unfold set_payload. rewrite fold_payload_lookup, rev_app_distr.
    reflexivity.
Qed.

End CommandExtras.

Section CallExtras.

Variable fnmatch : string -> string -> bool.
Variable strtod : string -> float.
Variable json_loads : string -> pyval + string.
Variable py_str : pyval -> string.
Variable hub : Client.hub_t.
Variable loaded : Config.

(** The loop of [call] over [params] prints at most; it sends and logs
    nothing. *)
Lemma call_parse_params_quiet (params : list string) (d : dict) :
  requests (trace (Cli.call_parse_params strtod params d)) = []
  /\ audit_records (trace (Cli.call_parse_params strtod params d)) = [].
Proof.
  revert d. induction params as [|t rest IH]; intros d; simpl.
  - split; reflexivity.
  - destruct (contains_char "=" t); simpl; [apply IH | split; reflexivity].
Qed.

(** Nor does the policy check on the value found under [entity_id]. *)
Lemma check_action_value_quiet (v : pyval) (action : string)
    (config : SafetyConfig) (force : bool) :
  requests (trace (Cli.check_action_value fnmatch py_str v action config force)) = []
  /\ audit_records
       (trace (Cli.check_action_value fnmatch py_str v action config force)) = [].
Proof.
  destruct v; cbn [Cli.check_action_value];
    try apply check_action_quiet;
    destruct (level config =? 0)%Z, (nonempty (blocked_entities config)),
             (nonempty (allowed_entities config)); split; reflexivity.
Qed.

(** [call] never calls [log_action] and sends at most one request, whatever
    its arguments. *)
Lemma call_trace_shape (service : string) (params : list string)
    (json_data : option string) (force : bool) :
  audit_records
    (trace (Cli.call fnmatch strtod json_loads py_str hub loaded
              service params json_data force)) = []
  /\ (length
        (requests
           (trace (Cli.call fnmatch strtod json_loads py_str hub loaded
                     service params json_data force))) <= 1)%nat.
Proof.
  unfold Cli.call, Cli.get_config. rewrite bind_ret_l.
  destruct (contains_char "." service); cbn [negb];
    [|cbn; split; [reflexivity | lia]].
  match goal with
  | |- context [try_except (bind ?m ?k) _] =>
      assert (Hm : requests (trace m) = [] /\ audit_records (trace m) = []);
      [| destruct m as [t0 [data|e0]] ]
  end.
  { destruct json_data as [[|c j]|].
    - pose proof (call_parse_params_quiet params []) as H.
      destruct (Cli.call_parse_params strtod params []) as [t [d|e]];
        cbn in *; rewrite ?app_nil_r; exact H.
    - destruct (json_loads (String c j)); split; reflexivity.
    - pose proof (call_parse_params_quiet params []) as H.
      destruct (Cli.call_parse_params strtod params []) as [t [d|e]];
        cbn in *; rewrite ?app_nil_r; exact H. }
  all: unfold requests, audit_records in *; cbn [trace fst] in Hm;
    destruct Hm as [Hr0 Ha0].
  2: { destruct e0; cbn; rewrite ?filter_app, ?Hr0, ?Ha0; cbn;
       split; (reflexivity || lia). }
  cbn [bind].
  destruct (Cli.has_entity_id data) as [t1 [present|e1]] eqn:Hhas.
  2: { assert (t1 = []) by (destruct data; unfold Cli.has_entity_id, ret, raise in Hhas; congruence). subst t1.
       destruct e1; cbn; rewrite ?filter_app, ?Hr0, ?Ha0; cbn;
         split; (reflexivity || lia). }
  assert (t1 = []) by (destruct data; unfold Cli.has_entity_id, ret, raise in Hhas; congruence). subst t1.
  cbn [bind].
  match goal with
  | |- context [bind (if ?b then ?chk else ret tt) _] =>
      assert (Hc : requests (trace (if b then chk else ret tt)) = []
                   /\ audit_records (trace (if b then chk else ret tt)) = []);
      [| destruct (if b then chk else ret tt) as [t2 [[]|e2]] ]
  end.
  { destruct (present && negb force); [|split; reflexivity].
    destruct (Cli.get_entity_id data) as [t3 [v|e3]] eqn:Hget.
    - assert (t3 = []) by (destruct data; unfold Cli.get_entity_id, ret, raise in Hget;
                           try destruct (dict_get _ _); congruence).
      subst t3. cbn [bind].
      pose proof (check_action_value_quiet v (nth 1 (split1 "." service) EmptyString)
                    (safety loaded) force) as H.
      destruct (Cli.check_action_value fnmatch py_str v _ _ _) as [t4 r4].
      exact H.
    - assert (t3 = []) by (destruct data; unfold Cli.get_entity_id, ret, raise in Hget;
                           try destruct (dict_get _ _); congruence).
      subst t3. split; reflexivity. }
  all: unfold requests, audit_records in Hc; cbn [trace fst] in Hc;
    destruct Hc as [Hr2 Ha2].
  2: { destruct e2; cbn; rewrite ?filter_app, ?Hr0, ?Ha0, ?Hr2, ?Ha2; cbn;
       split; (reflexivity || lia). }
  unfold Client.call_service, Client._make_request. cbn [bind].
  match goal with
  | |- context [hub ?m ?ep ?j] => destruct (hub m ep j) as [body|[msg code]]
  end;
  cbn; rewrite ?filter_app, ?Hr0, ?Ha0, ?Hr2, ?Ha2; cbn;
    split; (reflexivity || lia).
Qed.

Lemma request_not_in_quiet (tr : list event) (method endpoint : string)
    (json_data : option pyval) :
  requests tr = [] -> ~ In (Request method endpoint json_data) tr.
Proof.
  intros H Hin.
  assert (Hf : In (Request method endpoint json_data) (requests tr))
    by (apply filter_In; split; [exact Hin | reflexivity]).
  rewrite H in Hf. contradiction.
Qed.

(** X15.  [call] never calls [log_action]: no invocation of the command, allowed,
    denied or failed, leaves a record of the audit logger. *)
Theorem call_never_records (service : string) (params : list string)
    (json_data : option string) (force : bool) :
  audit_records
    (trace (Cli.call fnmatch strtod json_loads py_str hub loaded
              service params json_data force)) = [].
Proof. apply call_trace_shape. Qed.

(** X16.  [call] sends at most one request per invocation. *)
Theorem call_sends_at_most_one_request (service : string)
    (params : list string) (json_data : option string) (force : bool) :
  (length
     (requests
        (trace (Cli.call fnmatch strtod json_loads py_str hub loaded
                  service params json_data force))) <= 1)%nat.
Proof. apply call_trace_shape. Qed.

(** X17.  Without [--force], [call] sends a payload that names a string
    [entity_id] only after the policy engine has allowed the service name,
    as action, on that entity. *)
Theorem call_checks_named_entity (service : string) (params : list string)
    (json_data : option string) (method endpoint : string)
    (payload : dict) (entity_id : string) :
  In (Request method endpoint (Some (PDict payload)))
    (trace (Cli.call fnmatch strtod json_loads py_str hub loaded
              service params json_data false)) ->
  dict_get "entity_id" payload = Some (PStr entity_id) ->
  outcome (Safety.check_action fnmatch entity_id
             (nth 1 (split1 "." service) EmptyString)
             (Some (safety loaded)) false) = Return tt.
Proof.
  intros Hin Hget.
  unfold Cli.call, Cli.get_config in Hin. rewrite bind_ret_l in Hin.
  destruct (contains_char "." service); cbn [negb] in Hin;
    [|cbn in Hin; destruct Hin as [H|[H|[]]]; discriminate H].
  match type of Hin with
  | context [try_except (bind ?m ?k) _] =>
      assert (Hm : requests (trace m) = []);
      [| destruct m as [t0 [data|e0]] ]
  end.
  { destruct json_data as [[|c j]|].
    - pose proof (call_parse_params_quiet params []) as [H _].
      destruct (Cli.call_parse_params strtod params []) as [t [d|e]];
        cbn in *; rewrite ?app_nil_r; exact H.
    - destruct (json_loads (String c j)); reflexivity.
    - pose proof (call_parse_params_quiet params []) as [H _].
      destruct (Cli.call_parse_params strtod params []) as [t [d|e]];
        cbn in *; rewrite ?app_nil_r; exact H. }
  all: cbn [trace fst] in Hm.
  2: { exfalso. destruct e0; cbn in Hin;
       repeat (apply in_app_or in Hin; destruct Hin as [Hin|Hin]);
       try (now apply (request_not_in_quiet _ _ _ _ Hm) in Hin);
       repeat (destruct Hin as [Hin|Hin]; [discriminate Hin|]); exact Hin. }
  cbn [bind] in Hin.
  assert (Hq : forall v,
             requests (trace (Cli.check_action_value fnmatch py_str v
                                (nth 1 (split1 "." service) EmptyString)
                                (safety loaded) false)) = [])
    by (intros v; apply check_action_value_quiet).
  destruct data as [ | b | n | f | s | xs | kvs];
    cbn [Cli.has_entity_id Cli.get_entity_id] in Hin.
  1-4: exfalso; cbn in Hin; rewrite app_nil_r in Hin;
       now apply (request_not_in_quiet _ _ _ _ Hm) in Hin.
  - (* a string *)
    exfalso. rewrite bind_ret_l, andb_true_r in Hin.
    unfold Client.call_service, Client._make_request in Hin.
    destruct (str_contains "entity_id" s); cbn in Hin.
    + rewrite app_nil_r in Hin.
      now apply (request_not_in_quiet _ _ _ _ Hm) in Hin.
    + destruct (hub "POST" _ _) as [body|[msg code]]; cbn in Hin;
        rewrite ?in_app_iff in Hin; cbn [In] in Hin;
        repeat (destruct Hin as [Hin|Hin]);
        first [ contradiction
              | now apply (request_not_in_quiet _ _ _ _ Hm) in Hin
              | discriminate Hin
              | destruct (negb (String.eqb s EmptyString));
                [ discriminate Hin | injection Hin as _ _ <-; discriminate Hget ] ].
  - (* a list *)
    exfalso. rewrite bind_ret_l, andb_true_r in Hin.
    unfold Client.call_service, Client._make_request in Hin.
    destruct (existsb _ xs); cbn in Hin.
    + rewrite app_nil_r in Hin.
      now apply (request_not_in_quiet _ _ _ _ Hm) in Hin.
    + destruct (hub "POST" _ _) as [body|[msg code]]; cbn in Hin;
        rewrite ?in_app_iff in Hin; cbn [In] in Hin;
        repeat (destruct Hin as [Hin|Hin]);
        first [ contradiction
              | now apply (request_not_in_quiet _ _ _ _ Hm) in Hin
              | discriminate Hin
              | destruct (nonempty xs);
                [ discriminate Hin | injection Hin as _ _ <-; discriminate Hget ] ].
  - (* a dictionary *)
    rewrite bind_ret_l, andb_true_r in Hin.
    unfold dict_has in Hin.
    unfold Client.call_service, Client._make_request in Hin.
    destruct (dict_get "entity_id" kvs) as [v|] eqn:Hk.
    + rewrite bind_ret_l in Hin.
      assert (Hne : nonempty kvs = true) by (destruct kvs; [discriminate Hk | reflexivity]).
      cbn [truthy] in Hin. rewrite Hne in Hin.
      specialize (Hq v).
      assert (Hv : v = PStr entity_id ->
                   Cli.check_action_value fnmatch py_str v
                     (nth 1 (split1 "." service) EmptyString) (safety loaded) false
                   = Safety.check_action fnmatch entity_id
                       (nth 1 (split1 "." service) EmptyString)
                       (Some (safety loaded)) false)
        by (intros ->; reflexivity).
      destruct (Cli.check_action_value fnmatch py_str v _ _ _) as [t2 [[]|e2]].
      * cbn [trace fst] in Hq.
        destruct (hub "POST" _ _) as [body|[msg code]]; cbn in Hin;
          rewrite ?in_app_iff in Hin; cbn [In] in Hin;
          repeat (destruct Hin as [Hin|Hin]);
          first [ contradiction
                | now apply (request_not_in_quiet _ _ _ _ Hm) in Hin
                | now apply (request_not_in_quiet _ _ _ _ Hq) in Hin
                | discriminate Hin
                | injection Hin as _ _ <-;
                  rewrite Hk in Hget; injection Hget as Hget;
                  rewrite <- (Hv Hget); reflexivity ].
      * exfalso. cbn [trace fst] in Hq.
        destruct e2; cbn in Hin;
          rewrite ?in_app_iff in Hin; cbn [In] in Hin;
          repeat (destruct Hin as [Hin|Hin]);
          first [ contradiction
                | now apply (request_not_in_quiet _ _ _ _ Hm) in Hin
                | now apply (request_not_in_quiet _ _ _ _ Hq) in Hin
                | discriminate Hin ].
    + exfalso. cbn [truthy] in Hin.
      destruct (hub "POST" _ _) as [body|[msg code]]; cbn in Hin;
        rewrite ?in_app_iff in Hin; cbn [In] in Hin;
        repeat (destruct Hin as [Hin|Hin]);
        first [ contradiction
              | now apply (request_not_in_quiet _ _ _ _ Hm) in Hin
              | discriminate Hin
              | destruct (nonempty kvs);
                injection Hin as _ _ <-; [congruence | discriminate Hget] ].
Qed.

End CallExtras.

(* ------------------------------------------------------------------ *)
(** ** The further properties on concrete requests *)
(* ------------------------------------------------------------------ *)

(** [set light.kitchen brightness=128 color] stops at [color]. *)
Lemma set_malformed_token_witness :
  find (fun token => negb (contains_char "=" token)) ["brightness=128"; "color"]
  = Some "color"
  /\ Cli.set Fnmatch.glob_match no_strtod hub_ok config_outdoor_blocked
       "switch.outdoor_pump" ["brightness=128"; "color"] true
     = ([Print "[red]Error:[/red] Invalid attribute format: color";
         Print "[yellow]Expected format:[/yellow] key=value"],
        Raise (Exit 1)).
Proof.
  split; [reflexivity|].
  exact (set_malformed_token_preempts Fnmatch.glob_match no_strtod hub_ok
           config_outdoor_blocked "switch.outdoor_pump"
           ["brightness=128"; "color"] true "color" eq_refl).
Defined.

(** [filter=a=b] is the key [filter] with the value [a=b]. *)
Lemma token_round_trip_witness :
  contains_char "=" "filter" = false
  /\ Cli.set_parse_attributes no_strtod ["filter=a=b"] []
     = ret [("filter", PStr "a=b")].
Proof.
  split; [reflexivity|].
  exact (proj1 (token_round_trip no_strtod "filter" "a=b" [] eq_refl)).
Defined.

(** [set light.kitchen brightness=255 entity_id=light.bedroom]: the check is
    on [light.kitchen], the payload names [light.bedroom]. *)
Lemma set_entity_id_token_witness :
  forallb (contains_char "=") ["brightness=255"] = true
  /\ outcome (Safety.check_action Fnmatch.glob_match "light.kitchen" "set"
                (Some (safety config_open)) false) = Return tt
  /\ exists payload,
       requests
         (trace (Cli.set Fnmatch.glob_match no_strtod hub_ok config_open
                   "light.kitchen"
                   (["brightness=255"] ++ ["entity_id=" ++ "light.bedroom"])
                   false))
       = [Request "POST"
            ("/api/services/" ++ Safety.get_domain "light.kitchen" ++ "/turn_on")
            (Some (PDict payload))]
       /\ dict_get "entity_id" payload
          = Some (Cli.set_parse_value no_strtod "light.bedroom").
Proof.
  split; [reflexivity|]. split; [reflexivity|].
  exact (set_entity_id_token_retargets Fnmatch.glob_match no_strtod hub_ok
           config_open "light.kitchen" "light.bedroom" ["brightness=255"] false
           eq_refl eq_refl).
Defined.

Lemma kitchen_off_request_sent :
  In (Request "POST" "/api/services/light/turn_off"
        (Some (PDict [("entity_id", PStr "light.kitchen")])))
    (trace (Cli.call Fnmatch.glob_match no_strtod no_json no_str hub_ok
              config_open "light.turn_off" ["entity_id=light.kitchen"] None
              false)).
Proof. right. left. reflexivity. Defined.

(** [call light.turn_off entity_id=light.kitchen] under an open level-1
    policy: the request is in the trace, so the check has passed. *)
Lemma call_checks_named_entity_witness :
  In (Request "POST" "/api/services/light/turn_off"
        (Some (PDict [("entity_id", PStr "light.kitchen")])))
    (trace (Cli.call Fnmatch.glob_match no_strtod no_json no_str hub_ok
              config_open "light.turn_off" ["entity_id=light.kitchen"] None
              false))
  /\ outcome (Safety.check_action Fnmatch.glob_match "light.kitchen" "turn_off"
                (Some (safety config_open)) false) = Return tt.
Proof.
  split; [exact kitchen_off_request_sent|].
  exact (call_checks_named_entity Fnmatch.glob_match no_strtod no_json no_str
           hub_ok config_open "light.turn_off" ["entity_id=light.kitchen"] None
           "POST" "/api/services/light/turn_off"
           [("entity_id", PStr "light.kitchen")] "light.kitchen"
           kitchen_off_request_sent eq_refl).
Defined.

(** [yes] is typed alike by [set] and [call]. *)
Lemma parse_values_agree_witness :
  str_in (lower "Yes") ["on"; "off"] = false
  /\ Cli.set_parse_value no_strtod "Yes" = Cli.call_parse_value no_strtod "Yes".
Proof.
  split; [reflexivity|].
  exact (parse_values_agree no_strtod "Yes" eq_refl).
Defined.

Lemma light_set_request_sent :
  In (Request "POST" "/api/services/light/turn_on"
        (Some (PDict [("entity_id", PStr "light.kitchen");
                      ("brightness", PInt 128)])))
    (requests
       (trace (Cli.set Fnmatch.glob_match no_strtod hub_ok config_open
                 "light.kitchen" ["brightness=128"] false))).
Proof. left. reflexivity. Defined.

(** The request of [set light.kitchen brightness=128] goes to [turn_on]. *)
Lemma set_never_calls_a_set_service_witness :
  In (Request "POST" "/api/services/light/turn_on"
        (Some (PDict [("entity_id", PStr "light.kitchen");
                      ("brightness", PInt 128)])))
    (requests
       (trace (Cli.set Fnmatch.glob_match no_strtod hub_ok config_open
                 "light.kitchen" ["brightness=128"] false)))
  /\ exists payload,
       Request "POST" "/api/services/light/turn_on"
         (Some (PDict [("entity_id", PStr "light.kitchen");
                       ("brightness", PInt 128)]))
       = Request "POST"
           ("/api/services/" ++ Safety.get_domain "light.kitchen" ++ "/turn_on")
           (Some payload).
Proof.
  split; [exact light_set_request_sent|].
  exact (set_never_calls_a_set_service Fnmatch.glob_match no_strtod hub_ok
           config_open "light.kitchen" ["brightness=128"] false _
           light_set_request_sent).
Defined.

(** A denied [on] sends nothing; an allowed one sends one request. *)
Lemma service_called_only_when_allowed_witness :
  requests (trace (run Fnmatch.glob_match no_strtod hub_ok config_open
                     CmdToggle "light.kitchen" false)) <> []
  /\ outcome (Safety.check_action Fnmatch.glob_match "light.kitchen" "toggle"
                (Some (safety config_open)) false) = Return tt.
Proof.
  assert (H : requests (trace (run Fnmatch.glob_match no_strtod hub_ok config_open
                                 CmdToggle "light.kitchen" false)) <> [])
    by discriminate.
  split; [exact H|].
  exact (proj2 (service_called_only_when_allowed Fnmatch.glob_match no_strtod
                  hub_ok config_open CmdToggle "light.kitchen" false) H).
Defined.

(* ================================================================== *)
(** * config.py: the validators; models.py: service strings *)
(* ================================================================== *)

Module Validators.
Import Py.

(** The result of a validator or parser that raises [ValueError]. *)
Inductive validated (A : Type) : Type :=
| Valid (a : A)
| ValueError (msg : string).
Arguments Valid {A} a.
Arguments ValueError {A} msg.

(** [s.rstrip(c)] for a one-character [c]: every trailing [c] goes. *)
Fixpoint rstrip_char (c : ascii) (s : string) : string :=
  match s with
  | EmptyString => EmptyString
  | String d s' =>
      match rstrip_char c s' with
      | EmptyString => if Ascii.eqb d c then EmptyString else String d EmptyString
      | r => String d r
      end
  end.



(** [ServerConfig.validate_url(v)] *)
Definition validate_url (v : string) : validated string :=
  if negb (String.prefix "http://" v || String.prefix "https://" v) then
    ValueError "URL must start with http:// or https://"
  else Valid (rstrip_char "/" v).

Definition valid_levels : list string := ["DEBUG"; "INFO"; "WARNING"; "ERROR"].


(** [HomeAssistantClient.__init__]: the base URL the client keeps. *)
Definition client_base_url (base_url : string) : string :=
  rstrip_char "/" base_url.

(** [ServiceCall.parse_service_string(service_string)] *)
Definition parse_service_string (service_string : string)
  : validated (string * string) :=
  if negb (contains_char "." service_string) then
    ValueError ("Invalid service format: " ++ service_string
                ++ ". Expected 'domain.service'")
  else
    let parts := split1 "." service_string in
    Valid (nth 0 parts EmptyString, nth 1 parts EmptyString).

(** [n] copies of a character. *)
Fixpoint replicate (n : nat) (c : ascii) : string :=
  match n with
  | O => EmptyString
  | S n' => String c (replicate n' c)
  end.

(** [s] ends with the character [c]. *)
Fixpoint ends_with (c : ascii) (s : string) : bool :=
  match s with
  | EmptyString => false
  | String d EmptyString => Ascii.eqb d c
  | String _ s' => ends_with c s'
  end.

End Validators.

Import Validators.

Lemma rstrip_char_all (c : ascii) (n : nat) :
  rstrip_char c (replicate n c) = EmptyString.
Proof.
  induction n as [|n IH]; simpl; [reflexivity|].
  rewrite IH, Ascii.eqb_refl. reflexivity.
Qed.

(** What [rstrip] takes off is a run of the character, and nothing of it is
    left at the end. *)
Lemma rstrip_char_spec (c : ascii) (s : string) :
  (exists n, s = rstrip_char c s ++ replicate n c)
  /\ ends_with c (rstrip_char c s) = false.
Proof.
  induction s as [|d s [[n Hn] He]]; simpl.
  - split; [exists 0; reflexivity | reflexivity].
  - destruct (rstrip_char c s) as [|e r] eqn:Hr.
    + destruct (Ascii.eqb_spec d c) as [->|Hne].
      * split; [|reflexivity]. exists (S n). simpl. simpl in Hn.
        now rewrite <- Hn.
      * split.
        -- exists n. simpl. simpl in Hn. now rewrite <- Hn.
        -- simpl. now apply Ascii.eqb_neq.
    + split.
      * exists n. simpl. simpl in Hn. now rewrite <- Hn.
      * exact He.
Qed.

Lemma rstrip_char_fixed (c : ascii) (s : string) :
  ends_with c s = false -> rstrip_char c s = s.
Proof.
  induction s as [|d s IH]; simpl; [reflexivity|].
  destruct s as [|e s'].
  - simpl. intros H. now rewrite H.
  - intros H. rewrite (IH H). reflexivity.
Qed.

(** X19.  A URL is accepted exactly when it starts with one of the two schemes;
    the value kept is the URL without its trailing slashes, all of them, and
    the client, which strips again, keeps it unchanged. *)
Theorem validate_url_strips_slashes (v : string) :
  (forall msg, validate_url v = ValueError msg ->
     String.prefix "http://" v = false /\ String.prefix "https://" v = false)
  /\ (forall url, validate_url v = Valid url ->
        (String.prefix "http://" v = true \/ String.prefix "https://" v = true)
        /\ (exists n, v = url ++ replicate n "/")
        /\ ends_with "/" url = false
        /\ client_base_url url = url).
Proof.
  unfold validate_url, client_base_url.
  destruct (String.prefix "http://" v) eqn:H1;
    destruct (String.prefix "https://" v) eqn:H2; cbn [orb negb];
    (split; [intros msg H; first [discriminate H | split; reflexivity]|]);
    intros url H; try discriminate H; injection H as <-;
    destruct (rstrip_char_spec "/" v) as [Hn He];
    (repeat split; [auto | exact Hn | exact He | now apply rstrip_char_fixed]).
Qed.

Lemma validate_url_witness :
  validate_url "http://homeassistant.local:8123//"
  = Valid "http://homeassistant.local:8123"
  /\ ends_with "/" "http://homeassistant.local:8123" = false
  /\ client_base_url "http://homeassistant.local:8123"
     = "http://homeassistant.local:8123".
Proof.
  split; [reflexivity|].
  pose proof (proj2 (validate_url_strips_slashes
                       "http://homeassistant.local:8123//")
                "http://homeassistant.local:8123" eq_refl) as [_ [_ [He Hc]]].
  split; [exact He | exact Hc].
Defined.




Lemma contains_char_join (sep : ascii) (a b : string) :
  contains_char sep (a ++ String sep b) = true.
Proof.
  induction a as [|c a IH]; simpl.
  - now rewrite Ascii.eqb_refl.
  - rewrite IH. apply orb_true_r.
Qed.

(** X21.  A service string is accepted exactly when it holds a [.]; it is split
    at the first one: the result is [(domain, service)] exactly when the
    string is [domain.service] and the domain holds no dot. *)
Theorem parse_service_string_splits_at_first_dot
    (service_string domain service : string) :
  parse_service_string service_string = Valid (domain, service)
  <-> service_string = domain ++ "." ++ service
      /\ contains_char "." domain = false.
Proof.
  unfold parse_service_string. split.
  - destruct (split1_shape "." service_string)
      as [[Hno Hs] | [a [b [Hs [Heq Ha]]]]].
    + rewrite Hno. discriminate.
    + rewrite Heq at 1. change (a ++ String "." b) with (a ++ String "." b).
      rewrite contains_char_join. cbn [negb]. rewrite Hs. cbn [nth].
      intros H. injection H as <- <-. split; [exact Heq | exact Ha].
  - intros [-> Hd].
    change (domain ++ "." ++ service) with (domain ++ String "." service).
    rewrite contains_char_join, (split1_join _ _ _ Hd). reflexivity.
Qed.

(** X18.  [call_service_for_entity] always sends one POST to the service in the
    entity's own domain; in the payload [entity_id] is the entity given,
    whatever the data held under that key, and every other key of the data
    is passed on unchanged. *)
Theorem call_service_for_entity_payload
    (hub : Client.hub_t) (entity_id service : string) (data : option dict) :
  exists payload,
    requests (trace (Client.call_service_for_entity hub entity_id service data))
    = [Request "POST"
         ("/api/services/" ++ Safety.get_domain entity_id ++ "/" ++ service)
         (Some (PDict payload))]
    /\ dict_get "entity_id" payload = Some (PStr entity_id)
    /\ forall key,
         key <> "entity_id" ->
         dict_get key payload
         = match data with Some d => dict_get key d | None => None end.
Proof.
  set (d0 := match data with
             | Some d => if nonempty d then d else []
             | None => []
             end).
  exists (dict_set "entity_id" (PStr entity_id) d0).
  split; [|split].
  - unfold Client.call_service_for_entity, Client.call_service,
      Client._make_request, Safety.get_domain.
    fold d0. cbn [truthy]. rewrite dict_set_nonempty. unfold requests.
    destruct (hub "POST" _ _) as [body|[msg code]]; reflexivity.
  - rewrite dict_get_set. reflexivity.
  - intros key Hk. rewrite dict_get_set.
    rewrite (proj2 (String.eqb_neq key "entity_id") Hk).
    subst d0. destruct data as [[|kv d]|]; reflexivity.
Qed.

(* ================================================================== *)
(** * cli.py: [config show]; logger.py: [setup_logging] *)
(* ================================================================== *)

Module Settings.
Import Py Models Run.

(** [ServerConfig] *)
Record ServerConfig : Type := {
  url : string;
  token : option string
}.

(** [LoggingConfig]; [level] holds a name that passed [validate_level]. *)
Record LoggingConfig : Type := {
  enabled : bool;
  path : string;
  level : string
}.

(** [LoggingConfig()] *)
Definition LoggingConfig_default : LoggingConfig := {|
  enabled := true;
  path := "~/.config/moltbot-ha/actions.log";
  level := "INFO"
|}.

(** [Config], all three sections. *)
Record Config : Type := {
  server : ServerConfig;
  safety : Config.SafetyConfig;
  logging : LoggingConfig
}.

(** [s[k:]] *)
Fixpoint skip (k : nat) (s : string) : string :=
  match k, s with
  | O, _ => s
  | S _, EmptyString => EmptyString
  | S k', String _ s' => skip k' s'
  end.

(** [s[-n:]] for a positive [n]: the last [n] characters, or all of [s]
    when it is shorter. *)
Definition last_chars (n : nat) (s : string) : string :=
  skip (String.length s - n) s.

(** The dictionary [config_show] prints. *)
Definition config_display (config : Config) : pyval :=
  PDict
    [("server",
      PDict
        [("url", PStr (url (server config)));
         ("token",
          PStr ("***" ++
                match token (server config) with
                | Some t =>
                    if negb (String.eqb t EmptyString) then last_chars 4 t
                    else EmptyString
                | None => EmptyString
                end))]);
     ("safety",
      PDict
        [("level", PInt (Config.level (safety config)));
         ("critical_domains",
          PList (map PStr (Config.critical_domains (safety config))));
         ("blocked_entities",
          PList (map PStr (Config.blocked_entities (safety config))));
         ("allowed_entities",
          PList (map PStr (Config.allowed_entities (safety config))))]);
     ("logging",
      PDict
        [("enabled", PBool (enabled (logging config)));
         ("path", PStr (path (logging config)));
         ("level", PStr (level (logging config)))])].

Section Show.

(** [json.dumps(v, indent=2)] *)
Variable json_dumps : pyval -> string.

(** [config_show()], for a configuration that has been loaded. *)
Definition config_show (config : Config) : M unit :=
  emit (Print (json_dumps (config_display config))).

End Show.

(** What is shown under [server.token]. *)
Definition shown_token (display : pyval) : option pyval :=
  match display with
  | PDict sections =>
      match dict_get "server" sections with
      | Some (PDict fields) => dict_get "token" fields
      | _ => None
      end
  | _ => None
  end.

(** ** The sinks [setup_logging] installs *)

(** Numeric value of a level of the [logging] module. *)
Definition level_no (lvl : loglevel) : Z :=
  match lvl with
  | DEBUG => 10
  | INFO => 20
  | WARNING => 30
  | ERROR => 40
  end.

Definition level_name (lvl : loglevel) : string :=
  match lvl with
  | DEBUG => "DEBUG"
  | INFO => "INFO"
  | WARNING => "WARNING"
  | ERROR => "ERROR"
  end.

(** [getattr(logging, name, logging.INFO)] for the names [validate_level]
    lets through. *)
Definition getattr_level (name : string) : Z :=
  if String.eqb name "DEBUG" then 10
  else if String.eqb name "INFO" then 20
  else if String.eqb name "WARNING" then 30
  else if String.eqb name "ERROR" then 40
  else 20.

(** Where a handler writes. *)
Inductive target : Type :=
| LogFile (path : string)    (* [FileHandler(Path(path).expanduser())] *)
| Stderr.                    (* [StreamHandler(sys.stderr)] *)

(** The two formatters: [[asctime] [levelname] message] and [message]. *)
Inductive formatter : Type := Detailed | Simple.

Record handler : Type := {
  h_target : target;
  h_level : Z;
  h_formatter : formatter
}.

(** The root logger after [logging.basicConfig(level, handlers)]. *)
Record root_logger : Type := {
  root_level : Z;
  handlers : list handler
}.

(** [setup_logging(config)] *)
Definition setup_logging (config : option LoggingConfig) : root_logger :=
  match config with
  | None =>
      {| root_level := 20;
         handlers := [ {| h_target := Stderr; h_level := 0;
                          h_formatter := Simple |} ] |}
  | Some config =>
      let log_level := getattr_level (level config) in
      let file_handlers :=
        if enabled config then
          [ {| h_target := LogFile (path config); h_level := log_level;
               h_formatter := Detailed |} ]
        else [] in
      let console_handler :=
        {| h_target := Stderr; h_level := 30; h_formatter := Simple |} in
      {| root_level := log_level;
         handlers := (file_handlers ++ [console_handler])%list |}
  end.

(** A line as a handler writes it; the time stamp of the detailed format is
    left out. *)
Inductive line : Type :=
| DetailedLine (levelname message : string)
| SimpleLine (message : string).

Definition format_line (f : formatter) (lvl : loglevel) (msg : string) : line :=
  match f with
  | Detailed => DetailedLine (level_name lvl) msg
  | Simple => SimpleLine msg
  end.

(** The [logging] module on a record of a module logger (which has no level
    and no handler of its own): the record is dropped below the level of the
    root logger; otherwise each handler of the root logger whose level the
    record reaches writes it. *)
Definition deliver (root : root_logger) (lvl : loglevel) (msg : string)
  : list (target * line) :=
  if (level_no lvl <? root_level root)%Z then []
  else
    flat_map
      (fun h =>
         if (level_no lvl <? h_level h)%Z then []
         else [(h_target h, format_line (h_formatter h) lvl msg)])
      (handlers root).

(** Everything the log records of a trace leave in the sinks. *)
Definition written (root : root_logger) (tr : list event)
  : list (target * line) :=
  flat_map
    (fun ev =>
       match ev with
       | Log _ lvl msg => deliver root lvl msg
       | _ => []
       end)
    tr.

End Settings.

Lemma skip_spec (k : nat) (s : string) :
  (exists hidden, s = hidden ++ Settings.skip k s)
  /\ String.length (Settings.skip k s) = String.length s - k.
Proof.
  revert s. induction k as [|k IH]; intros s.
  - simpl. split; [exists EmptyString; reflexivity | lia].
  - destruct s as [|c s]; simpl.
    + split; [exists EmptyString; reflexivity | reflexivity].
    + destruct (IH s) as [[hidden Hh] Hl]. split; [|exact Hl].
      exists (String c hidden). simpl. now rewrite <- Hh.
Qed.

(** X22.  [config show] never prints more of the token than its last four
    characters: what stands under [server.token] is [***] followed by a
    suffix of the token of length [min 4 (length token)] (nothing for an
    absent or empty token).  A token of four characters or fewer is thus
    shown whole. *)
Theorem config_show_masks_token (config : Settings.Config) :
  exists hidden shown,
    Settings.shown_token (Settings.config_display config)
    = Some (PStr ("***" ++ shown))
    /\ match Settings.token (Settings.server config) with
       | Some t => t
       | None => EmptyString
       end = hidden ++ shown
    /\ String.length shown
       = Nat.min 4
           (String.length
              match Settings.token (Settings.server config) with
              | Some t => t
              | None => EmptyString
              end).
Proof.
  unfold Settings.config_display, Settings.shown_token. cbn [dict_get String.eqb].
  destruct (Settings.token (Settings.server config)) as [t|].
  - destruct (String.eqb_spec t EmptyString) as [->|Hne]; cbn [negb].
    + exists EmptyString, EmptyString. repeat split; reflexivity.
    + destruct (skip_spec (String.length t - 4) t) as [[hidden Hh] Hl].
      exists hidden, (Settings.last_chars 4 t).
      split; [reflexivity|]. split; [exact Hh|].
      unfold Settings.last_chars. rewrite Hl. lia.
  - exists EmptyString, EmptyString. repeat split; reflexivity.
Qed.

Section AuditSinks.

Variable fnmatch : string -> string -> bool.
Variable strtod : string -> float.
Variable hub : Client.hub_t.
Variable loaded : Config.

(** The records of [log_action] in the trace of a command. *)
Lemma audit_records_run (c : entity_cmd) (entity_id : string) (force : bool) :
  audit_records (trace (run fnmatch strtod hub loaded c entity_id force))
  = match malformed c with
    | Some _ => []
    | None =>
        match outcome (Safety.check_action fnmatch entity_id (action_of c)
                         (Some (safety loaded)) force) with
        | Return _ =>
            match hub "POST" (fst (service_call strtod c entity_id))
                    (Some (snd (service_call strtod c entity_id))) with
            | inl _ => trace (Logger.log_action entity_id (action_of c) force true)
            | inr _ => []
            end
        | Raise (PermissionError _) =>
            trace (Logger.log_action entity_id (action_of c) force false)
        | Raise _ => []
        end
    end.
Proof.
  pose proof (check_action_quiet fnmatch entity_id (action_of c)
                (Some (safety loaded)) force) as [_ Ha].
  pose proof (check_action_answers fnmatch entity_id (action_of c)
                (Some (safety loaded)) force) as Hans.
  rewrite run_cases. cbv zeta.
  destruct (malformed c); [reflexivity|].
  destruct (Safety.check_action fnmatch entity_id (action_of c)
              (Some (safety loaded)) force) as [tr r].
  unfold audit_records in *. cbn [trace outcome fst snd] in *.
  destruct r as [[]|[]]; try discriminate Hans.
  - destruct (hub "POST" _ _) as [body|[msg code]];
      cbn [trace fst]; rewrite filter_app, Ha; destruct force; reflexivity.
  - cbn [trace fst]. rewrite filter_app, Ha. reflexivity.
  - cbn [trace fst]. rewrite filter_app, Ha. destruct force; reflexivity.
Qed.

(** X23.  A denial by [on], [off], [toggle] or [set] always reaches the sinks:
    under any validated log level the record of [log_action] is written as
    an [ERROR] line to the log file when the file is enabled, and as a bare
    message to standard error in every case. *)
Theorem denial_reaches_the_sinks
    (lc : Settings.LoggingConfig)
    (c : entity_cmd) (entity_id : string) (force : bool) (msg : string) :
  In (Settings.level lc) valid_levels ->
  well_formed c = true ->
  outcome (Safety.check_action fnmatch entity_id (action_of c)
             (Some (safety loaded)) force) = Raise (PermissionError msg) ->
  Settings.written (Settings.setup_logging (Some lc))
    (audit_records (trace (run fnmatch strtod hub loaded c entity_id force)))
  = ((if Settings.enabled lc then
        [(Settings.LogFile (Settings.path lc),
          Settings.DetailedLine "ERROR"
            ("DENIED: " ++ action_of c ++ " on " ++ entity_id
             ++ (if force then " [FORCED]" else EmptyString)))]
      else [])
     ++ [(Settings.Stderr,
          Settings.SimpleLine
            ("DENIED: " ++ action_of c ++ " on " ++ entity_id
             ++ (if force then " [FORCED]" else EmptyString)))])%list.
Proof.
  intros Hlvl Hwf Hden.
  assert (Hm : malformed c = None).
  { destruct c; try reflexivity. now apply malformed_none. }
  rewrite audit_records_run, Hm, Hden.
  unfold Settings.setup_logging, Settings.written, Settings.deliver.
  destruct Hlvl as [H|[H|[H|[H|[]]]]]; rewrite <- H;
    destruct (Settings.enabled lc), force; reflexivity.
Qed.

(** X24.  An allowed action whose service call succeeds is recorded by
    [log_action] at level [INFO], or [WARNING] when forced.  The record
    reaches the log file only when the file is enabled and the configured
    level is not above the record's; only a forced action shows on standard
    error.  So with the level set to [WARNING] or [ERROR] an unforced action
    leaves no line of [log_action] anywhere. *)
Theorem allowed_action_recorded_by_level
    (lc : Settings.LoggingConfig)
    (c : entity_cmd) (entity_id : string) (force : bool) (body : pyval) :
  In (Settings.level lc) valid_levels ->
  well_formed c = true ->
  outcome (Safety.check_action fnmatch entity_id (action_of c)
             (Some (safety loaded)) force) = Return tt ->
  hub "POST" (fst (service_call strtod c entity_id))
    (Some (snd (service_call strtod c entity_id))) = inl body ->
  let lvl := if force then WARNING else INFO in
  let message :=
    "ALLOWED: " ++ action_of c ++ " on " ++ entity_id
    ++ (if force then " [FORCED]" else EmptyString) in
  Settings.written (Settings.setup_logging (Some lc))
    (audit_records (trace (run fnmatch strtod hub loaded c entity_id force)))
  = ((if Settings.enabled lc
         && (Settings.getattr_level (Settings.level lc)
             <=? Settings.level_no lvl)%Z
      then [(Settings.LogFile (Settings.path lc),
             Settings.DetailedLine (Settings.level_name lvl) message)]
      else [])
     ++ (if force && negb (String.eqb (Settings.level lc) "ERROR")
         then [(Settings.Stderr, Settings.SimpleLine message)]
         else []))%list.
Proof.
  intros Hlvl Hwf Hok Hhub.
  assert (Hm : malformed c = None).
  { destruct c; try reflexivity. now apply malformed_none. }
  cbv zeta. rewrite audit_records_run, Hm, Hok, Hhub.
  unfold Settings.setup_logging, Settings.written, Settings.deliver.
  destruct Hlvl as [H|[H|[H|[H|[]]]]]; rewrite <- H;
    destruct (Settings.enabled lc), force; reflexivity.
Qed.

End AuditSinks.

(* ================================================================== *)
(** * client.py: the reply of the hub; [test_connection]; cli.py: [test] *)
(* ================================================================== *)

Module Http.
Import Py Models Run.






Definition name : string := "ha_ctl.client".

Section WithHub.

Variable hub : Client.hub_t.
Variable py_str : pyval -> string.    (* str(v), as an f-string formats v *)

(** [HomeAssistantClient.test_connection()]: [result.get] exists on a
    dictionary only. *)
Definition test_connection : M bool :=
  result <- Client._make_request hub "GET" "/api/" None ;;
  match result with
  | PDict d =>
      let message :=
        match dict_get "message" d with
        | Some (PStr s) => s
        | Some v => py_str v
        | None => "OK"
        end in
      emit (Log name INFO ("Connected to Home Assistant: " ++ message)) ;;
      ret true
  | _ => raise AttributeError
  end.

(** The command [test] of cli.py. *)
Definition test : M unit :=
  try_except
    (_ <- test_connection ;;
     emit (Print "[green]✓[/green] Connected to Home Assistant successfully"))
    (fun e =>
       match e with
       | ApiError _ _ =>
           Some (emit (Print ("[red]✗[/red] Connection failed: " ++ exn_str e)) ;;
                 raise (Exit 1))
       | _ => None
       end).

End WithHub.

End Http.


(** X26.  The command [test] ends normally exactly when the hub answers [GET
    /api/] with a JSON object.  An [ApiError] is reported and gives exit
    code 1.  Any other body, a non-JSON one included, makes
    [test_connection] raise [AttributeError], which [test] does not catch,
    although the request succeeded. *)
Theorem test_succeeds_on_json_object_only
    (hub : Client.hub_t) (py_str : pyval -> string) :
  match hub "GET" "/api/" None with
  | inl (PDict d) =>
      outcome (Http.test hub py_str) = Return tt
  | inl _ =>
      Http.test hub py_str
      = ([Request "GET" "/api/" None], Raise AttributeError)
  | inr (message, status_code) =>
      Http.test hub py_str
      = ([Request "GET" "/api/" None;
          Print ("[red]✗[/red] Connection failed: "
                 ++ ApiError_str message status_code)],
         Raise (Exit 1))
  end.
Proof.
  unfold Http.test, Http.test_connection, Client._make_request.
  destruct (hub "GET" "/api/" None) as [body|[message status_code]].
  - destruct body; reflexivity.
  - reflexivity.
Qed.

(* ================================================================== *)
(** * The typing of numerals *)
(* ================================================================== *)










Section Numerals.

Variable strtod : string -> float.



End Numerals.

(* ------------------------------------------------------------------ *)
(** ** The sinks on concrete requests *)
(* ------------------------------------------------------------------ *)

(** A logging section with the level raised to [WARNING]. *)
Definition logging_warning : Settings.LoggingConfig :=
  {| Settings.enabled := true;
     Settings.path := "~/.config/moltbot-ha/actions.log";
     Settings.level := "WARNING" |}.

Lemma default_level_valid :
  In (Settings.level Settings.LoggingConfig_default) valid_levels.
Proof. right. left. reflexivity. Defined.

Lemma warning_level_valid : In (Settings.level logging_warning) valid_levels.
Proof. right. right. left. reflexivity. Defined.

(** [on switch.outdoor_pump --force] on a blocked entity, default logging:
    the denial is in the file and on standard error. *)
Lemma denial_reaches_the_sinks_witness :
  In (Settings.level Settings.LoggingConfig_default) valid_levels
  /\ well_formed CmdOn = true
  /\ outcome (Safety.check_action Fnmatch.glob_match "switch.outdoor_pump"
                (action_of CmdOn) (Some (safety config_outdoor_blocked)) true)
     = Raise (PermissionError (Safety.blocked_message "switch.outdoor_pump"))
  /\ Settings.written (Settings.setup_logging (Some Settings.LoggingConfig_default))
       (audit_records
          (trace (run Fnmatch.glob_match no_strtod hub_ok config_outdoor_blocked
                    CmdOn "switch.outdoor_pump" true)))
     = [(Settings.LogFile "~/.config/moltbot-ha/actions.log",
         Settings.DetailedLine "ERROR"
           "DENIED: turn_on on switch.outdoor_pump [FORCED]");
        (Settings.Stderr,
         Settings.SimpleLine "DENIED: turn_on on switch.outdoor_pump [FORCED]")].
Proof.
  split; [exact default_level_valid|]. split; [reflexivity|].
  split; [reflexivity|].
  exact (denial_reaches_the_sinks Fnmatch.glob_match no_strtod hub_ok
           config_outdoor_blocked Settings.LoggingConfig_default CmdOn
           "switch.outdoor_pump" true
           (Safety.blocked_message "switch.outdoor_pump")
           default_level_valid eq_refl eq_refl).
Defined.

(** [toggle light.kitchen], allowed and carried out, with the level at
    [WARNING]: [log_action] leaves no line. *)
Lemma allowed_action_unrecorded_witness :
  In (Settings.level logging_warning) valid_levels
  /\ well_formed CmdToggle = true
  /\ outcome (Safety.check_action Fnmatch.glob_match "light.kitchen"
                (action_of CmdToggle) (Some (safety config_open)) false)
     = Return tt
  /\ Settings.written (Settings.setup_logging (Some logging_warning))
       (audit_records
          (trace (run Fnmatch.glob_match no_strtod hub_ok config_open
                    CmdToggle "light.kitchen" false)))
     = [].
Proof.
  split; [exact warning_level_valid|]. split; [reflexivity|].
  split; [reflexivity|].
  exact (allowed_action_recorded_by_level Fnmatch.glob_match no_strtod hub_ok
           config_open logging_warning CmdToggle "light.kitchen" false PNone
           warning_level_valid eq_refl eq_refl eq_refl).
Defined.
